(** * DP83TC81x single-pair Ethernet PHY driver: a shallow embedding

    The model follows [drivers/net/phy/dp83tc81x.c].  C [int] values are
    integers in [Z]; bit masks use [Z.land]/[Z.shiftr], which on negative
    numbers agree with two's complement.  Driver entry points are actions
    of a small state monad over the [phy_device]; the register transport
    of the PHY core is an interface ([mdio_bus_ops]) the driver is
    parameterised by, and every transport call, delay and cable-test
    publication is recorded in the device's [trace]. *)

From Stdlib Require Import ZArith List Bool Lia.
Import ListNotations.
Local Open Scope Z_scope.

(** ** Register map and bit definitions (the [#define]s of the driver) *)

Definition BIT (n : Z) : Z := Z.shiftl 1 n.

Definition MMD1F : Z := 0x1f.
Definition MMD1 : Z := 0x1.

Definition DP83TC81x_STRAP : Z := 0x45d.
Definition MII_DP83TC81x_RESET_CTRL : Z := 0x1f.
Definition DP83TC81x_CDCR : Z := 0x1E.
Definition TDR_DONE : Z := BIT 1.
Definition TDR_FAIL : Z := BIT 0.
Definition DP83TC81x_TDR_TC1 : Z := 0x310.
Definition DP83TC81x_TDR_START_BIT : Z := BIT 15.
Definition PEAK_DETECT : Z := BIT 7.
Definition PEAK_SIGN : Z := BIT 6.

Definition DP83TC81x_HW_RESET : Z := BIT 15.
Definition DP83TC81x_SW_RESET : Z := BIT 14.

Definition DP83TC81x_MASTER_MODE : Z := BIT 9.
Definition DP83TC81x_RGMII_IS_EN : Z := BIT 7.

Definition DP83TC81x_dsp_reg_71 : Z := 0x871.
Definition MAX_SQI_VALUE : Z := 0x7.

(** [enum dp83tc81x_chip_type]; the private data keeps it in an [int]. *)
Definition DP83TC812_CT : Z := 0.
Definition DP83TC813_CT : Z := 1.
Definition DP83TC814_CT : Z := 2.

(** Kernel constants the driver uses (errno and ethtool values). *)
Definition EIO : Z := 5.
Definition EINVAL : Z := 22.
Definition ETIMEDOUT : Z := 110.
Definition AUTONEG_DISABLE : Z := 0.
Definition SPEED_100 : Z := 100.
Definition DUPLEX_FULL : Z := 1.
Definition ETHTOOL_LINK_MODE_100baseT_Full_BIT : Z := 3.
Definition ETHTOOL_A_CABLE_PAIR_A : Z := 0.

(** The ethtool cable-test result codes, in the order of the kernel's
    enumeration. *)
Inductive cable_result_code : Type :=
| ETHTOOL_A_CABLE_RESULT_CODE_UNSPEC
| ETHTOOL_A_CABLE_RESULT_CODE_OK
| ETHTOOL_A_CABLE_RESULT_CODE_OPEN
| ETHTOOL_A_CABLE_RESULT_CODE_SAME_SHORT
| ETHTOOL_A_CABLE_RESULT_CODE_CROSS_SHORT.

(** ** C scalar conversions *)

(** C truth value of an integer. *)
Definition nonzero (z : Z) : bool := negb (z =? 0).

(** Conversion to [u32] and to [int] (wrap-around modulo 2^32). *)
Definition to_u32 (z : Z) : Z := z mod 2 ^ 32.
Definition to_s32 (z : Z) : Z := (z + 2 ^ 31) mod 2 ^ 32 - 2 ^ 31.

(** ** Data *)

Record dp83tc81x_init_reg : Type := mk_init_reg {
  MMD : Z;
  reg : Z;
  val : Z
}.

Definition DP83TC812_master_cs2_0_init : list dp83tc81x_init_reg :=
  [ mk_init_reg 0x1F 0x001F 0x8000;
    mk_init_reg 0x1F 0x0523 0x0001;
    mk_init_reg 0x1 0x0834 0xC001;
    mk_init_reg 0x1F 0x081C 0x0FE2;
    mk_init_reg 0x1F 0x0872 0x0300;
    mk_init_reg 0x1F 0x0879 0x0F00;
    mk_init_reg 0x1F 0x0806 0x2952;
    mk_init_reg 0x1F 0x0807 0x3361;
    mk_init_reg 0x1F 0x0808 0x3D7B;
    mk_init_reg 0x1F 0x083E 0x045F;
    mk_init_reg 0x1F 0x0834 0x8000;
    mk_init_reg 0x1F 0x0862 0x00E8;
    mk_init_reg 0x1F 0x0896 0x32CB;
    mk_init_reg 0x1F 0x003E 0x0009;
    mk_init_reg 0x1F 0x001F 0x4000;
    mk_init_reg 0x1F 0x0523 0x0000 ].

Definition DP83TC812_slave_cs2_0_init : list dp83tc81x_init_reg :=
  [ mk_init_reg 0x1F 0x001F 0x8000;
    mk_init_reg 0x1F 0x0523 0x0001;
    mk_init_reg 0x1 0x0834 0x8001;
    mk_init_reg 0x1F 0x0873 0x0821;
    mk_init_reg 0x1F 0x0896 0x22FF;
    mk_init_reg 0x1F 0x089E 0x0000;
    mk_init_reg 0x1F 0x001F 0x4000;
    mk_init_reg 0x1F 0x0523 0x0000 ].

Definition DP83TC81x_tdr_config_init : list dp83tc81x_init_reg :=
  [ mk_init_reg 0x1F 0x523 0x0001;
    mk_init_reg 0x1F 0x827 0x4800;
    mk_init_reg 0x1F 0x301 0x1701;
    mk_init_reg 0x1F 0x303 0x023D;
    mk_init_reg 0x1F 0x305 0x0015;
    mk_init_reg 0x1F 0x306 0x001A;
    mk_init_reg 0x1F 0x01f 0x4000;
    mk_init_reg 0x1F 0x523 0x0000;
    mk_init_reg 0x1F 0x01f 0x0000 ].

Record dp83tc81x_private : Type := mk_private {
  chip : Z;
  is_master : bool;
  is_rgmii : bool;
  is_sgmii : bool
}.

(** What the driver does to the outside world, in program order. *)
Inductive event : Type :=
| EvReadMmd (devad regnum res : Z)
| EvWriteMmd (devad regnum value res : Z)
| EvSetBitsMmd (devad regnum bits res : Z)
| EvDelay (ms : Z)
| EvFaultLength (pair cm : Z)
| EvResult (pair : Z) (code : cable_result_code).

(** The register transport of the PHY core.  Each operation returns the
    C result (a value or a negative errno) and the next bus state. *)
Record mdio_bus_ops (B : Type) : Type := mk_bus_ops {
  mdio_read_mmd : Z -> Z -> B -> Z * B;
  mdio_write_mmd : Z -> Z -> Z -> B -> Z * B;
  mdio_set_bits_mmd : Z -> Z -> Z -> B -> Z * B
}.
Arguments mdio_read_mmd {B} _ _ _ _.
Arguments mdio_write_mmd {B} _ _ _ _ _.
Arguments mdio_set_bits_mmd {B} _ _ _ _ _.

(** [struct phy_device], restricted to what the driver touches. *)
Record phy_device (B : Type) : Type := mk_phy_device {
  priv : dp83tc81x_private;
  autoneg : Z;
  speed : Z;
  duplex : Z;
  supported : Z;
  mdio : B;
  trace : list event
}.
Arguments mk_phy_device {B} _ _ _ _ _ _ _.
Arguments priv {B} _.
Arguments autoneg {B} _.
Arguments speed {B} _.
Arguments duplex {B} _.
Arguments supported {B} _.
Arguments mdio {B} _.
Arguments trace {B} _.

(** ** The state monad of driver actions *)

Definition M (S A : Type) : Type := S -> A * S.

Definition mret {S A : Type} (a : A) : M S A := fun s => (a, s).

Definition mbind {S A C : Type} (m : M S A) (k : A -> M S C) : M S C :=
  fun s => let (a, s') := m s in k a s'.

Declare Scope drv_scope.
Delimit Scope drv_scope with drv.
Notation "x <- m ;; k" := (mbind m (fun x => k))
  (at level 61, m at next level, right associativity) : drv_scope.
Notation "m ;; k" := (mbind m (fun _ => k))
  (at level 61, right associativity) : drv_scope.
Local Open Scope drv_scope.

Section Driver.

Context {B : Type}.
Variable ops : mdio_bus_ops B.

Abbreviation dev := (phy_device B).
Abbreviation act := (M dev).

(** Generic PHY helpers called by [read_status]. *)
Variable genphy_read_status : act Z.
Variable genphy_c45_pma_baset1_read_master_slave : act Z.

(** *** Primitive effects *)

Definition emit (e : event) : act unit :=
  fun s => (tt, mk_phy_device (priv s) (autoneg s) (speed s) (duplex s)
                  (supported s) (mdio s) (trace s ++ [e])).

Definition on_bus (f : B -> Z * B) : act Z :=
  fun s => let (r, b) := f (mdio s) in
           (r, mk_phy_device (priv s) (autoneg s) (speed s) (duplex s)
                 (supported s) b (trace s)).

Definition update_priv (f : dp83tc81x_private -> dp83tc81x_private)
  : act unit :=
  fun s => (tt, mk_phy_device (f (priv s)) (autoneg s) (speed s) (duplex s)
                  (supported s) (mdio s) (trace s)).

Definition get_priv : act dp83tc81x_private := fun s => (priv s, s).

Definition phy_read_mmd (devad regnum : Z) : act Z :=
  r <- on_bus (mdio_read_mmd ops devad regnum) ;;
  emit (EvReadMmd devad regnum r) ;;
  mret r.

Definition phy_write_mmd (devad regnum value : Z) : act Z :=
  r <- on_bus (mdio_write_mmd ops devad regnum value) ;;
  emit (EvWriteMmd devad regnum value r) ;;
  mret r.

Definition phy_set_bits_mmd (devad regnum bits : Z) : act Z :=
  r <- on_bus (mdio_set_bits_mmd ops devad regnum bits) ;;
  emit (EvSetBitsMmd devad regnum bits r) ;;
  mret r.

Definition mdelay (ms : Z) : act unit := emit (EvDelay ms).
Definition msleep (ms : Z) : act unit := emit (EvDelay ms).

Definition ethnl_cable_test_fault_length (pair cm : Z) : act unit :=
  emit (EvFaultLength pair (to_u32 cm)).

Definition ethnl_cable_test_result (pair : Z) (code : cable_result_code)
  : act unit :=
  emit (EvResult pair code).

Definition set_link_params (a sp d : Z) : act unit :=
  fun s => (tt, mk_phy_device (priv s) a sp d (supported s) (mdio s)
                  (trace s)).

Definition linkmode_set_bit_supported (nr : Z) : act unit :=
  fun s => (tt, mk_phy_device (priv s) (autoneg s) (speed s) (duplex s)
                  (Z.setbit (supported s) nr) (mdio s) (trace s)).

(** *** The driver *)

Definition dp83tc81x_read_straps : act Z :=
  strap <- phy_read_mmd MMD1F DP83TC81x_STRAP ;;
  if strap <? 0 then mret strap
  else
    (if nonzero (Z.land strap DP83TC81x_MASTER_MODE)
     then update_priv (fun p =>
            mk_private (chip p) true (is_rgmii p) (is_sgmii p))
     else mret tt) ;;
    (if nonzero (Z.land strap DP83TC81x_RGMII_IS_EN)
     then update_priv (fun p =>
            mk_private (chip p) (is_master p) true (is_sgmii p))
     else mret tt) ;;
    mret 0.

Definition dp83tc81x_reset (hw_reset : bool) : act Z :=
  ret <- (if hw_reset
          then phy_write_mmd MMD1F MII_DP83TC81x_RESET_CTRL
                 DP83TC81x_HW_RESET
          else phy_write_mmd MMD1F MII_DP83TC81x_RESET_CTRL
                 DP83TC81x_SW_RESET) ;;
  if nonzero ret then mret ret
  else mdelay 100 ;; mret 0.

Definition dp83tc81x_phy_reset : act Z :=
  err <- phy_write_mmd MMD1F MII_DP83TC81x_RESET_CTRL DP83TC81x_HW_RESET ;;
  if err <? 0 then mret err
  else
    ret <- dp83tc81x_read_straps ;;
    if nonzero ret then mret ret else mret 0.

(** The [for] loop over [init_data[0 .. size-1]]; every call site passes
    the whole table ([ARRAY_SIZE]). *)
Fixpoint dp83tc81x_write_seq (init_data : list dp83tc81x_init_reg)
  : act Z :=
  match init_data with
  | [] => mret 0
  | r :: rest =>
      ret <- phy_write_mmd (MMD r) (reg r) (val r) ;;
      if nonzero ret then mret ret else dp83tc81x_write_seq rest
  end.

Definition dp83tc81x_read_status : act Z :=
  ret <- genphy_read_status ;;
  if nonzero ret then mret ret
  else
    ret <- genphy_c45_pma_baset1_read_master_slave ;;
    mret 0.

Definition dp83tc81x_sqi : act Z :=
  sqi <- phy_read_mmd MMD1F DP83TC81x_dsp_reg_71 ;;
  if sqi <? 0 then mret sqi
  else
    let sqi := Z.land (Z.shiftr sqi 1) 0x7 in
    mret sqi.

Definition dp83tc81x_sqi_max : act Z := mret MAX_SQI_VALUE.

Definition dp83tc81x_cable_test_start : act Z :=
  _ <- dp83tc81x_write_seq DP83TC81x_tdr_config_init ;;
  _ <- phy_write_mmd MMD1F DP83TC81x_CDCR DP83TC81x_TDR_START_BIT ;;
  msleep 100 ;;
  mret 0.

(** [result] is the [u32] parameter. *)
Definition dp83tc81x_cable_test_report_trans (result : Z)
  : act cable_result_code :=
  if result =? 0 then mret ETHTOOL_A_CABLE_RESULT_CODE_OK
  else if nonzero (Z.land result PEAK_DETECT) then
    let length_of_fault := to_s32 (to_u32 (Z.land result 0x3F * 100)) in
    if nonzero (Z.land result PEAK_SIGN) then
      ethnl_cable_test_fault_length ETHTOOL_A_CABLE_PAIR_A
        length_of_fault ;;
      mret ETHTOOL_A_CABLE_RESULT_CODE_OPEN
    else
      ethnl_cable_test_fault_length ETHTOOL_A_CABLE_PAIR_A
        length_of_fault ;;
      mret ETHTOOL_A_CABLE_RESULT_CODE_SAME_SHORT
  else mret ETHTOOL_A_CABLE_RESULT_CODE_UNSPEC.

Definition dp83tc81x_cable_test_report : act Z :=
  ret <- phy_read_mmd MMD1F DP83TC81x_TDR_TC1 ;;
  if ret <? 0 then mret ret
  else
    code <- dp83tc81x_cable_test_report_trans (to_u32 ret) ;;
    ethnl_cable_test_result ETHTOOL_A_CABLE_PAIR_A code ;;
    mret 0.

(** The [bool *finished] out-parameter is returned next to the result;
    the function overwrites it before anything else. *)
Definition dp83tc81x_cable_test_get_status : act (Z * bool) :=
  let finished := false in
  ret <- phy_read_mmd MMD1F DP83TC81x_CDCR ;;
  if negb (nonzero (Z.land ret TDR_DONE)) then mret (0, finished)
  else if negb (nonzero (Z.land ret TDR_FAIL)) then
    let finished := true in
    r <- dp83tc81x_cable_test_report ;;
    mret (r, finished)
  else mret (- EINVAL, finished).

(** One arm of the [switch] in [chip_init]; the three chip types have
    the same body in the source. *)
Definition chip_init_tables : act Z :=
  p <- get_priv ;;
  if is_master p then
    ret <- dp83tc81x_write_seq DP83TC812_master_cs2_0_init ;;
    _ <- phy_set_bits_mmd MMD1F 0x018B (BIT 6) ;;
    mret ret
  else
    ret <- dp83tc81x_write_seq DP83TC812_slave_cs2_0_init ;;
    _ <- phy_set_bits_mmd MMD1F 0x018B (BIT 6) ;;
    mret ret.

Definition chip_init_finish (ret : Z) : act Z :=
  if nonzero ret then mret ret
  else mdelay 10 ;; dp83tc81x_reset false.

Definition dp83tc81x_chip_init : act Z :=
  ret <- dp83tc81x_reset true ;;
  if nonzero ret then mret ret
  else
    set_link_params AUTONEG_DISABLE SPEED_100 DUPLEX_FULL ;;
    linkmode_set_bit_supported ETHTOOL_LINK_MODE_100baseT_Full_BIT ;;
    p <- get_priv ;;
    ret <- (if is_master p
            then phy_write_mmd MMD1 0x0834 0xc001
            else phy_write_mmd MMD1 0x0834 0x8001) ;;
    p <- get_priv ;;
    if chip p =? DP83TC812_CT then
      ret <- chip_init_tables ;; chip_init_finish ret
    else if chip p =? DP83TC813_CT then
      ret <- chip_init_tables ;; chip_init_finish ret
    else if chip p =? DP83TC814_CT then
      ret <- chip_init_tables ;; chip_init_finish ret
    else mret (- EINVAL).

End Driver.

(** ** A caller polling the cable test

    The ethtool core calls [cable_test_get_status] again and again until
    it reports [finished]; [poll_status n] is [n] such calls in a row,
    collecting what each one returned. *)
Fixpoint poll_status {B : Type} (ops : mdio_bus_ops B) (n : nat)
  : M (phy_device B) (list (Z * bool)) :=
  match n with
  | O => mret []
  | S n' =>
      r <- dp83tc81x_cable_test_get_status ops ;;
      rs <- poll_status ops n' ;;
      mret (r :: rs)
  end.

(** The next [n] reads of the TDR status register all have the done bit
    (bit 1) clear. *)
Fixpoint done_clear_for {B : Type} (ops : mdio_bus_ops B) (n : nat) (b : B)
  : bool :=
  match n with
  | O => true
  | S n' =>
      let (v, b') := mdio_read_mmd ops MMD1F DP83TC81x_CDCR b in
      negb (Z.testbit v 1) && done_clear_for ops n' b'
  end.

(** The bus state after [n] reads of the TDR status register, and the
    read events they leave in the trace. *)
Fixpoint status_reads {B : Type} (ops : mdio_bus_ops B) (n : nat) (b : B)
  : list event * B :=
  match n with
  | O => ([], b)
  | S n' =>
      let (v, b') := mdio_read_mmd ops MMD1F DP83TC81x_CDCR b in
      let (evs, b'') := status_reads ops n' b' in
      (EvReadMmd MMD1F DP83TC81x_CDCR v :: evs, b'')
  end.

(** The value the next read of register [devad.regnum] returns. *)
Definition next_read {B : Type} (ops : mdio_bus_ops B) (devad regnum : Z)
  (s : phy_device B) : Z :=
  fst (mdio_read_mmd ops devad regnum (mdio s)).

(** The device [s] with its bus moved to [b] and [evs] appended to its
    trace; nothing else changed. *)
Definition advanced {B : Type} (s : phy_device B) (b : B) (evs : list event)
  : phy_device B :=
  mk_phy_device (priv s) (autoneg s) (speed s) (duplex s) (supported s)
    b (trace s ++ evs).

(** ** A scripted bus

    A transport whose outcomes are fixed in advance: every operation
    returns the next number of the script (a register value, [0], or a
    negative errno), and [0] once the script is used up. *)
Module ScriptedBus.

Definition bus : Type := list Z.

Definition next (b : bus) : Z * bus :=
  match b with
  | [] => (0, [])
  | x :: rest => (x, rest)
  end.

Definition ops : mdio_bus_ops bus :=
  mk_bus_ops bus (fun _ _ => next) (fun _ _ _ => next) (fun _ _ _ => next).

Definition device (p : dp83tc81x_private) (script : bus) : phy_device bus :=
  mk_phy_device p 0 0 0 0 script [].

Definition slave812 : dp83tc81x_private :=
  mk_private DP83TC812_CT false false false.

Definition master812 : dp83tc81x_private :=
  mk_private DP83TC812_CT true false false.

(** Stand-ins for the generic helpers of [read_status]: a status read
    that succeeds and a master/slave read that fails with [-EIO]. *)
Definition link_read_ok : M (phy_device bus) Z := mret 0.
Definition master_slave_read_eio : M (phy_device bus) Z := mret (- EIO).

End ScriptedBus.

(** ** The attach and configuration paths *)

Definition MII_DP83TC81x_SGMII_CTRL : Z := 0x608.
Definition SGMII_CONFIG_VAL : Z := 0x027B.
Definition MII_DP83TC81x_INT_STAT1 : Z := 0x12.
Definition MII_DP83TC81x_INT_STAT2 : Z := 0x13.
Definition MII_DP83TC81x_INT_STAT3 : Z := 0x18.

Definition DP83TC812_PHY_ID : Z := 0x2000a271.
Definition DP83TC813_PHY_ID : Z := 0x2000a211.
Definition DP83TC814_PHY_ID : Z := 0x2000a261.

(** INT_STAT1 bits *)
Definition DP83TC81x_ESD_EVENT_INT_EN : Z := BIT 3.
Definition DP83TC81x_LINK_STAT_INT_EN : Z := BIT 5.
Definition DP83TC81x_ENERGY_DET_INT_EN : Z := BIT 6.
Definition DP83TC81x_LINK_QUAL_INT_EN : Z := BIT 7.

(** INT_STAT2 bits *)
Definition DP83TC81x_SLEEP_MODE_INT_EN : Z := BIT 2.
Definition DP83TC81x_OVERTEMP_INT_EN : Z := BIT 3.
Definition DP83TC81x_OVERVOLTAGE_INT_EN : Z := BIT 6.
Definition DP83TC81x_UNDERVOLTAGE_INT_EN : Z := BIT 7.

(** INT_STAT3 bits *)
Definition DP83TC81x_LPS_INT_EN : Z := BIT 0.
Definition DP83TC81x_WAKE_REQ_INT_EN : Z := BIT 2.
Definition DP83TC811_NO_FRAME_INT_EN : Z := BIT 3.
Definition DP83TC811_POR_DONE_INT_EN : Z := BIT 4.

(** RGMII ID CTRL *)
Definition DP83TC81x_RGMII_ID_CTRL : Z := 0x602.
Definition DP83TC81x_RX_CLK_SHIFT : Z := BIT 1.
Definition DP83TC81x_TX_CLK_SHIFT : Z := BIT 0.

(** Further kernel constants. *)
Definition ENOMEM : Z := 12.
Definition AUTONEG_ENABLE : Z := 1.
Definition PHY_INTERRUPT_ENABLED : bool := true.

(** Conversion to [u16], the type of the value [phy_write] takes. *)
Definition to_u16 (z : Z) : Z := z mod 2 ^ 16.

(** [phy_interface_t]: the modes the driver tells apart; every other mode
    of the kernel's enumeration is [PHY_INTERFACE_MODE_other]. *)
Inductive phy_interface_t : Type :=
| PHY_INTERFACE_MODE_SGMII
| PHY_INTERFACE_MODE_RGMII
| PHY_INTERFACE_MODE_RGMII_ID
| PHY_INTERFACE_MODE_RGMII_RXID
| PHY_INTERFACE_MODE_RGMII_TXID
| PHY_INTERFACE_MODE_other.

(** The kernel's [phy_interface_is_rgmii]: the four RGMII modes. *)
Definition phy_interface_is_rgmii (mode : phy_interface_t) : bool :=
  match mode with
  | PHY_INTERFACE_MODE_RGMII | PHY_INTERFACE_MODE_RGMII_ID
  | PHY_INTERFACE_MODE_RGMII_RXID | PHY_INTERFACE_MODE_RGMII_TXID => true
  | _ => false
  end.

Definition is_PHY_INTERFACE_MODE_SGMII (mode : phy_interface_t) : bool :=
  match mode with
  | PHY_INTERFACE_MODE_SGMII => true
  | _ => false
  end.

(** Clause-22 register accesses ([phy_read], [phy_write]), in program
    order. *)
Inductive mii_event : Type :=
| EvRead (regnum res : Z)
| EvWrite (regnum value res : Z).

(** The clause-22 side of the register transport. *)
Record mii_bus_ops (B : Type) : Type := mk_mii_ops {
  mii_read : Z -> B -> Z * B;
  mii_write : Z -> Z -> B -> Z * B
}.
Arguments mii_read {B} _ _ _.
Arguments mii_write {B} _ _ _ _.

(** The device as the attach and configuration paths see it: the fields
    modelled in [phy_device] ([core]), the further fields of
    [struct phy_device] these paths read, and the log of clause-22
    accesses. *)
Record attached_phy (B : Type) : Type := mk_attached_phy {
  core : phy_device B;
  interface : phy_interface_t;
  interrupts : bool;
  phy_id : Z;
  mii_trace : list mii_event
}.
Arguments mk_attached_phy {B} _ _ _ _ _.
Arguments core {B} _.
Arguments interface {B} _.
Arguments interrupts {B} _.
Arguments phy_id {B} _.
Arguments mii_trace {B} _.

(** The event a table entry leaves in the trace when its write
    succeeds. *)
Definition written_ok (r : dp83tc81x_init_reg) : event :=
  EvWriteMmd (MMD r) (reg r) (val r) 0.

(** The device with another chip type in its private data. *)
Definition with_chip {B : Type} (c : Z) (s : phy_device B) : phy_device B :=
  mk_phy_device
    (mk_private c (is_master (priv s)) (is_rgmii (priv s))
       (is_sgmii (priv s)))
    (autoneg s) (speed s) (duplex s) (supported s) (mdio s) (trace s).

(** The link parameters [chip_init] forces once the hardware reset went
    through. *)
Definition with_forced_link {B : Type} (s : phy_device B) : phy_device B :=
  mk_phy_device (priv s) AUTONEG_DISABLE SPEED_100 DUPLEX_FULL
    (Z.setbit (supported s) ETHTOOL_LINK_MODE_100baseT_Full_BIT)
    (mdio s) (trace s).

(** The chip types [chip_init] has a case for. *)
Definition known_chip (c : Z) : bool :=
  (c =? DP83TC812_CT) || (c =? DP83TC813_CT) || (c =? DP83TC814_CT).

(** The result of the hardware-reset write [chip_init] starts with. *)
Definition hw_reset_result {B : Type} (ops : mdio_bus_ops B)
  (s : phy_device B) : Z :=
  fst (mdio_write_mmd ops MMD1F MII_DP83TC81x_RESET_CTRL DP83TC81x_HW_RESET
         (mdio s)).

(** The table [chip_init] writes for the role of the device. *)
Definition chip_init_table {B : Type} (s : phy_device B)
  : list dp83tc81x_init_reg :=
  if is_master (priv s) then DP83TC812_master_cs2_0_init
  else DP83TC812_slave_cs2_0_init.

(** What [chip_init] leaves in the trace before it writes the table: the
    hardware reset that went through, its delay, and the master/slave
    write with its result [r]. *)
Definition chip_init_prologue {B : Type} (s : phy_device B) (r : Z)
  : list event :=
  [EvWriteMmd MMD1F MII_DP83TC81x_RESET_CTRL DP83TC81x_HW_RESET 0;
   EvDelay 100;
   EvWriteMmd MMD1 0x0834 (if is_master (priv s) then 0xc001 else 0x8001) r].

(** Events that change nothing on the device: register reads and
    cable-test publications. *)
Definition is_read_or_publication (e : event) : bool :=
  match e with
  | EvReadMmd _ _ _ | EvFaultLength _ _ | EvResult _ _ => true
  | _ => false
  end.

Section Attach.

Context {B : Type}.
Variable ops : mdio_bus_ops B.
Variable mii : mii_bus_ops B.

Abbreviation actx := (M (attached_phy B)).

(** [phy_get_internal_delay (phydev, dev, NULL, 0, is_rx)]: the delay the
    firmware description asks for, or a negative errno. *)
Variable phy_get_internal_delay : bool -> Z.

(** Generic PHY helpers called by [config_aneg]. *)
Variable genphy_c45_pma_baset1_setup_master_slave : actx Z.
Variable genphy_setup_forced : actx Z.
Variable genphy_config_aneg : actx Z.

Definition lift {A : Type} (m : M (phy_device B) A) : actx A :=
  fun d => let (a, c) := m (core d) in
           (a, mk_attached_phy c (interface d) (interrupts d) (phy_id d)
                 (mii_trace d)).

Definition get_phydev : actx (attached_phy B) := fun d => (d, d).

Definition log_mii (e : mii_event) : actx unit :=
  fun d => (tt, mk_attached_phy (core d) (interface d) (interrupts d)
                  (phy_id d) (mii_trace d ++ [e])).

Definition phy_read (regnum : Z) : actx Z :=
  r <- lift (on_bus (mii_read mii regnum)) ;;
  log_mii (EvRead regnum r) ;;
  mret r.

Definition phy_write (regnum value : Z) : actx Z :=
  r <- lift (on_bus (mii_write mii regnum (to_u16 value))) ;;
  log_mii (EvWrite regnum (to_u16 value) r) ;;
  mret r.

(** The delay bits [config_init] computes from the two internal
    delays. *)
Definition rgmii_delay_bits (rx_int_delay tx_int_delay : Z) : Z :=
  let rgmii_delay :=
    if rx_int_delay <=? 0 then 0 else DP83TC81x_RX_CLK_SHIFT in
  if tx_int_delay <=? 0
  then Z.land rgmii_delay (Z.lnot DP83TC81x_TX_CLK_SHIFT)
  else Z.lor rgmii_delay DP83TC81x_TX_CLK_SHIFT.

(** The SGMII block of [config_init] and its final [return 0]. *)
Definition config_init_sgmii : actx Z :=
  d <- get_phydev ;;
  if is_PHY_INTERFACE_MODE_SGMII (interface d) then
    value <- phy_read MII_DP83TC81x_SGMII_CTRL ;;
    ret <- lift (phy_write_mmd ops MMD1F MII_DP83TC81x_SGMII_CTRL
                   SGMII_CONFIG_VAL) ;;
    if ret <? 0 then mret ret else mret 0
  else mret 0.

Definition dp83tc81x_config_init : actx Z :=
  ret <- lift (dp83tc81x_chip_init ops) ;;
  if nonzero ret then mret ret
  else
    d <- get_phydev ;;
    if phy_interface_is_rgmii (interface d) then
      let rx_int_delay := phy_get_internal_delay true in
      let tx_int_delay := phy_get_internal_delay false in
      let rgmii_delay := rgmii_delay_bits rx_int_delay tx_int_delay in
      if nonzero rgmii_delay then
        ret <- lift (phy_set_bits_mmd ops MMD1 DP83TC81x_RGMII_ID_CTRL
                       rgmii_delay) ;;
        if nonzero ret then mret ret else config_init_sgmii
      else config_init_sgmii
    else config_init_sgmii.

Definition dp83tc81x_config_intr : actx Z :=
  d <- get_phydev ;;
  if Bool.eqb (interrupts d) PHY_INTERRUPT_ENABLED then
    misr_status <- phy_read MII_DP83TC81x_INT_STAT1 ;;
    if misr_status <? 0 then mret misr_status
    else
      let misr_status :=
        Z.lor misr_status
          (Z.lor DP83TC81x_ESD_EVENT_INT_EN
             (Z.lor DP83TC81x_LINK_STAT_INT_EN
                (Z.lor DP83TC81x_ENERGY_DET_INT_EN
                   DP83TC81x_LINK_QUAL_INT_EN))) in
      err <- phy_write MII_DP83TC81x_INT_STAT1 misr_status ;;
      if err <? 0 then mret err
      else
        misr_status <- phy_read MII_DP83TC81x_INT_STAT2 ;;
        if misr_status <? 0 then mret misr_status
        else
          let misr_status :=
            Z.lor misr_status
              (Z.lor DP83TC81x_SLEEP_MODE_INT_EN
                 (Z.lor DP83TC81x_OVERTEMP_INT_EN
                    (Z.lor DP83TC81x_OVERVOLTAGE_INT_EN
                       DP83TC81x_UNDERVOLTAGE_INT_EN))) in
          err <- phy_write MII_DP83TC81x_INT_STAT2 misr_status ;;
          if err <? 0 then mret err
          else
            misr_status <- phy_read MII_DP83TC81x_INT_STAT3 ;;
            if misr_status <? 0 then mret misr_status
            else
              let misr_status :=
                Z.lor misr_status
                  (Z.lor DP83TC81x_LPS_INT_EN
                     (Z.lor DP83TC81x_WAKE_REQ_INT_EN
                        (Z.lor DP83TC811_NO_FRAME_INT_EN
                           DP83TC811_POR_DONE_INT_EN))) in
              err <- phy_write MII_DP83TC81x_INT_STAT3 misr_status ;;
              mret err
  else
    err <- phy_write MII_DP83TC81x_INT_STAT1 0 ;;
    if err <? 0 then mret err
    else
      err <- phy_write MII_DP83TC81x_INT_STAT2 0 ;;
      if err <? 0 then mret err
      else
        err <- phy_write MII_DP83TC81x_INT_STAT3 0 ;;
        mret err.

(** [config_aneg] after its SGMII block; [changed] is set but never
    read. *)
Definition config_aneg_master_slave : actx Z :=
  err <- genphy_c45_pma_baset1_setup_master_slave ;;
  if err <? 0 then mret err
  else
    d <- get_phydev ;;
    if negb (autoneg (core d) =? AUTONEG_ENABLE) then genphy_setup_forced
    else genphy_config_aneg.

Definition dp83tc81x_config_aneg : actx Z :=
  d <- get_phydev ;;
  if is_PHY_INTERFACE_MODE_SGMII (interface d) then
    value <- phy_read MII_DP83TC81x_SGMII_CTRL ;;
    ret <- lift (phy_write_mmd ops MMD1F MII_DP83TC81x_SGMII_CTRL
                   SGMII_CONFIG_VAL) ;;
    if ret <? 0 then mret ret else config_aneg_master_slave
  else config_aneg_master_slave.

(** [devm_kzalloc] either fails or hands out zeroed private data;
    [alloc_ok] is which. *)
Definition dp83tc81x_probe (alloc_ok : bool) : actx Z :=
  if negb alloc_ok then mret (- ENOMEM)
  else
    lift (update_priv (fun _ => mk_private 0 false false false)) ;;
    ret <- lift (dp83tc81x_read_straps ops) ;;
    if nonzero ret then mret ret
    else
      d <- get_phydev ;;
      if phy_id d =? DP83TC812_PHY_ID then
        lift (update_priv (fun p =>
                mk_private DP83TC812_CT (is_master p) (is_rgmii p)
                  (is_sgmii p))) ;;
        dp83tc81x_config_init
      else if phy_id d =? DP83TC813_PHY_ID then
        lift (update_priv (fun p =>
                mk_private DP83TC813_CT (is_master p) (is_rgmii p)
                  (is_sgmii p))) ;;
        dp83tc81x_config_init
      else if phy_id d =? DP83TC814_PHY_ID then
        lift (update_priv (fun p =>
                mk_private DP83TC814_CT (is_master p) (is_rgmii p)
                  (is_sgmii p))) ;;
        dp83tc81x_config_init
      else mret (- EINVAL).

End Attach.

(** The attached device with another [core]. *)
Definition with_core {B : Type} (d : attached_phy B) (c : phy_device B)
  : attached_phy B :=
  mk_attached_phy c (interface d) (interrupts d) (phy_id d) (mii_trace d).

(** The attached device after clause-22 accesses: the bus moved to [b]
    and [evs] appended to the clause-22 log; nothing else changed. *)
Definition mii_accessed {B : Type} (d : attached_phy B) (b : B)
  (evs : list mii_event) : attached_phy B :=
  mk_attached_phy
    (mk_phy_device (priv (core d)) (autoneg (core d)) (speed (core d))
       (duplex (core d)) (supported (core d)) b (trace (core d)))
    (interface d) (interrupts d) (phy_id d) (mii_trace d ++ evs).

(** The result a clause-22 access returned. *)
Definition mii_result (e : mii_event) : Z :=
  match e with
  | EvRead _ res => res
  | EvWrite _ _ res => res
  end.

(** The PHY identifiers [probe] has a case for, and the chip type it
    stores for each. *)
Definition known_chip_id (id : Z) : bool :=
  (id =? DP83TC812_PHY_ID) || (id =? DP83TC813_PHY_ID)
  || (id =? DP83TC814_PHY_ID).

Definition chip_of_id (id : Z) : Z :=
  if id =? DP83TC812_PHY_ID then DP83TC812_CT
  else if id =? DP83TC813_PHY_ID then DP83TC813_CT
  else DP83TC814_CT.

(** The device [c] after the one strap read [probe] makes, with private
    data [p]. *)
Definition after_strap_read {B : Type} (ops : mdio_bus_ops B)
  (c : phy_device B) (p : dp83tc81x_private) : phy_device B :=
  mk_phy_device p (autoneg c) (speed c) (duplex c) (supported c)
    (snd (mdio_read_mmd ops MMD1F DP83TC81x_STRAP (mdio c)))
    (trace c
     ++ [EvReadMmd MMD1F DP83TC81x_STRAP
           (next_read ops MMD1F DP83TC81x_STRAP c)]).

(** Scripted clause-22 accesses and a device on the scripted bus. *)
Module ScriptedMii.

Definition mii : mii_bus_ops ScriptedBus.bus :=
  mk_mii_ops ScriptedBus.bus (fun _ => ScriptedBus.next)
    (fun _ _ => ScriptedBus.next).

Definition attached (p : dp83tc81x_private) (mode : phy_interface_t)
  (irq : bool) (id : Z) (script : ScriptedBus.bus)
  : attached_phy ScriptedBus.bus :=
  mk_attached_phy (ScriptedBus.device p script) mode irq id [].

(** Firmware descriptions: no internal delay at all, and a delay on the
    receive clock only. *)
Definition no_delay (is_rx : bool) : Z := 0.
Definition rx_delay_only (is_rx : bool) : Z := if is_rx then 1 else 0.

(** Stand-ins for the generic helpers of [config_aneg]: each returns a
    number of its own and leaves the device alone. *)
Definition master_slave_setup_ok : M (attached_phy ScriptedBus.bus) Z :=
  mret 0.
Definition setup_forced_ok : M (attached_phy ScriptedBus.bus) Z := mret 0.
Definition config_aneg_ok : M (attached_phy ScriptedBus.bus) Z := mret 1.

End ScriptedMii.

(** * Properties *)

(** ** Bit masks *)

Lemma BIT_pow2 (n : Z) : 0 <= n -> BIT n = 2 ^ n.
Proof. intros Hn. unfold BIT. now rewrite Z.shiftl_1_l. Qed.

Lemma land_BIT (v n : Z) :
  0 <= n -> Z.land v (BIT n) = if Z.testbit v n then BIT n else 0.
Proof.
  intros Hn. rewrite BIT_pow2 by assumption.
  apply Z.bits_inj'. intros i Hi.
  rewrite Z.land_spec, Z.pow2_bits_eqb by assumption.
  destruct (Z.eqb_spec n i) as [->|Hne].
  - rewrite andb_true_r. destruct (Z.testbit v i) eqn:Hv.
    + rewrite Z.pow2_bits_eqb by assumption. now rewrite Z.eqb_refl.
    + now rewrite Z.bits_0.
  - rewrite andb_false_r. destruct (Z.testbit v n).
    + rewrite Z.pow2_bits_eqb by assumption.
      symmetry. now apply Z.eqb_neq.
    + now rewrite Z.bits_0.
Qed.

Lemma nonzero_land_BIT (v n : Z) :
  0 <= n -> nonzero (Z.land v (BIT n)) = Z.testbit v n.
Proof.
  intros Hn. rewrite land_BIT by assumption. unfold nonzero.
  destruct (Z.testbit v n).
  - rewrite BIT_pow2 by assumption.
    assert (0 < 2 ^ n) by (apply Z.pow_pos_nonneg; lia).
    destruct (Z.eqb_spec (2 ^ n) 0); [lia | reflexivity].
  - reflexivity.
Qed.

Lemma land_low6_range (v : Z) : 0 <= Z.land v 0x3F <= 63.
Proof.
  pose proof (Z.land_ones v 6 ltac:(lia)) as E.
  change (Z.ones 6) with 0x3F in E. change (2 ^ 6) with 64 in E.
  rewrite E. pose proof (Z.mod_pos_bound v 64 ltac:(lia)). lia.
Qed.

Lemma fault_length_no_wrap (v : Z) :
  to_u32 (to_s32 (to_u32 (Z.land v 0x3F * 100))) = Z.land v 0x3F * 100.
Proof.
  pose proof (land_low6_range v) as H.
  unfold to_u32, to_s32.
  change (2 ^ 32) with 4294967296. change (2 ^ 31) with 2147483648.
  rewrite (Z.mod_small (Z.land v 0x3F * 100)) by lia.
  rewrite (Z.mod_small (Z.land v 0x3F * 100 + 2147483648)) by lia.
  rewrite Z.mod_small by lia. lia.
Qed.

Lemma testbit_7_nonzero (v : Z) : Z.testbit v 7 = true -> v <> 0.
Proof. intros H ->. now rewrite Z.bits_0 in H. Qed.

(** ** Equations of the primitive effects and of the driver entry points *)

Section DriverFacts.

Context {B : Type}.
Variable ops : mdio_bus_ops B.

Lemma advanced_advanced (s : phy_device B) (b b' : B) (evs evs' : list event) :
  advanced (advanced s b evs) b' evs' = advanced s b' (evs ++ evs').
Proof. unfold advanced. simpl. now rewrite app_assoc. Qed.

Lemma advanced_nil (s : phy_device B) : advanced s (mdio s) [] = s.
Proof. destruct s. unfold advanced. simpl. now rewrite app_nil_r. Qed.

Lemma emit_eq (e : event) (s : phy_device B) :
  emit e s = (tt, advanced s (mdio s) [e]).
Proof. reflexivity. Qed.

Lemma phy_read_mmd_eq (devad regnum : Z) (s : phy_device B) :
  phy_read_mmd ops devad regnum s =
  (next_read ops devad regnum s,
   advanced s (snd (mdio_read_mmd ops devad regnum (mdio s)))
     [EvReadMmd devad regnum (next_read ops devad regnum s)]).
Proof.
  unfold phy_read_mmd, next_read, mbind, on_bus, emit, mret, advanced.
  now destruct (mdio_read_mmd ops devad regnum (mdio s)).
Qed.

Lemma phy_write_mmd_eq (devad regnum value : Z) (s : phy_device B) :
  phy_write_mmd ops devad regnum value s =
  (fst (mdio_write_mmd ops devad regnum value (mdio s)),
   advanced s (snd (mdio_write_mmd ops devad regnum value (mdio s)))
     [EvWriteMmd devad regnum value
        (fst (mdio_write_mmd ops devad regnum value (mdio s)))]).
Proof.
  unfold phy_write_mmd, mbind, on_bus, emit, mret, advanced.
  now destruct (mdio_write_mmd ops devad regnum value (mdio s)).
Qed.

Lemma report_trans_eq (v : Z) (s : phy_device B) :
  dp83tc81x_cable_test_report_trans v s =
  if v =? 0 then (ETHTOOL_A_CABLE_RESULT_CODE_OK, s)
  else if Z.testbit v 7 then
    (if Z.testbit v 6 then ETHTOOL_A_CABLE_RESULT_CODE_OPEN
     else ETHTOOL_A_CABLE_RESULT_CODE_SAME_SHORT,
     advanced s (mdio s)
       [EvFaultLength ETHTOOL_A_CABLE_PAIR_A (Z.land v 0x3F * 100)])
  else (ETHTOOL_A_CABLE_RESULT_CODE_UNSPEC, s).
Proof.
  unfold dp83tc81x_cable_test_report_trans, PEAK_DETECT, PEAK_SIGN.
  rewrite !nonzero_land_BIT by lia.
  destruct (v =? 0); [reflexivity|].
  destruct (Z.testbit v 7); [|reflexivity].
  unfold mbind, ethnl_cable_test_fault_length.
  rewrite fault_length_no_wrap.
  destruct (Z.testbit v 6); now rewrite emit_eq.
Qed.

Lemma report_eq (s : phy_device B) :
  dp83tc81x_cable_test_report ops s =
  let v := next_read ops MMD1F DP83TC81x_TDR_TC1 s in
  let s1 := snd (phy_read_mmd ops MMD1F DP83TC81x_TDR_TC1 s) in
  if v <? 0 then (v, s1)
  else
    let cs := dp83tc81x_cable_test_report_trans (to_u32 v) s1 in
    (0, advanced (snd cs) (mdio (snd cs))
          [EvResult ETHTOOL_A_CABLE_PAIR_A (fst cs)]).
Proof.
  unfold dp83tc81x_cable_test_report, mbind at 1.
  rewrite phy_read_mmd_eq. cbv zeta. cbn [snd].
  destruct (next_read ops MMD1F DP83TC81x_TDR_TC1 s <? 0); [reflexivity|].
  unfold mbind, ethnl_cable_test_result, mret.
  destruct (dp83tc81x_cable_test_report_trans _ _) as [code s2].
  now rewrite emit_eq.
Qed.

Lemma get_status_eq (s : phy_device B) :
  dp83tc81x_cable_test_get_status ops s =
  let v := next_read ops MMD1F DP83TC81x_CDCR s in
  let s1 := snd (phy_read_mmd ops MMD1F DP83TC81x_CDCR s) in
  if negb (Z.testbit v 1) then ((0, false), s1)
  else if negb (Z.testbit v 0) then
    ((fst (dp83tc81x_cable_test_report ops s1), true),
     snd (dp83tc81x_cable_test_report ops s1))
  else ((- EINVAL, false), s1).
Proof.
  unfold dp83tc81x_cable_test_get_status, mbind at 1.
  rewrite phy_read_mmd_eq. cbv zeta. cbn [snd].
  unfold TDR_DONE, TDR_FAIL. rewrite !nonzero_land_BIT by lia.
  set (v := next_read ops MMD1F DP83TC81x_CDCR s).
  set (s1 := advanced _ _ _).
  destruct (Z.testbit v 1); [|reflexivity].
  destruct (Z.testbit v 0); [reflexivity|].
  cbn [negb]. unfold mbind, mret.
  now destruct (dp83tc81x_cable_test_report ops s1).
Qed.

(** ** Decoding the TDR result register *)

(** C1. For every raw result value: the value [0] decodes to OK; with
    bit 7 (peak detected) set the classification is OPEN when bit 6
    (sign) is set and SAME_SHORT when it is clear, whatever the other
    bits are; with bit 7 clear and a value other than [0] it is UNSPEC. *)
Theorem report_trans_classification (s : phy_device B) :
  fst (dp83tc81x_cable_test_report_trans 0 s)
    = ETHTOOL_A_CABLE_RESULT_CODE_OK
  /\ (forall v, Z.testbit v 7 = true ->
        fst (dp83tc81x_cable_test_report_trans v s)
          = if Z.testbit v 6 then ETHTOOL_A_CABLE_RESULT_CODE_OPEN
            else ETHTOOL_A_CABLE_RESULT_CODE_SAME_SHORT)
  /\ (forall v, Z.testbit v 7 = false -> v <> 0 ->
        fst (dp83tc81x_cable_test_report_trans v s)
          = ETHTOOL_A_CABLE_RESULT_CODE_UNSPEC).
Proof.
  split; [reflexivity | split].
  - intros v H7. rewrite report_trans_eq, H7.
    apply testbit_7_nonzero, Z.eqb_neq in H7. now rewrite H7.
  - intros v H7 Hv. rewrite report_trans_eq, H7.
    apply Z.eqb_neq in Hv. now rewrite Hv.
Qed.

Lemma land_mask_testbit (v w m i : Z) :
  Z.land w m = Z.land v m -> Z.testbit m i = true ->
  Z.testbit w i = Z.testbit v i.
Proof.
  intros E Hm.
  assert (H : Z.testbit (Z.land w m) i = Z.testbit (Z.land v m) i)
    by now rewrite E.
  now rewrite !Z.land_spec, Hm, !andb_true_r in H.
Qed.

Lemma land_mask_low6 (v w : Z) :
  Z.land w 0xFF = Z.land v 0xFF -> Z.land w 0x3F = Z.land v 0x3F.
Proof.
  intros E. change 0x3F with (Z.land 0xFF 0x3F).
  now rewrite !Z.land_assoc, E.
Qed.

(** C2 (as the code has it). For every raw result value with bit 7 set
    the decode publishes exactly one fault length, [(v & 0x3F) * 100],
    for pair A; two values that agree on the bits of [0xC0 | 0x3F] decode
    alike; raw result [0xC8] (bits 7 and 6 set, magnitude 8) decodes to
    OPEN at distance 800, and [0x88] to SAME_SHORT at distance 800. *)
Theorem report_trans_fault_distance (s : phy_device B) :
  (forall v, Z.testbit v 7 = true ->
     snd (dp83tc81x_cable_test_report_trans v s)
       = advanced s (mdio s)
           [EvFaultLength ETHTOOL_A_CABLE_PAIR_A (Z.land v 0x3F * 100)])
  /\ (forall v w, Z.testbit v 7 = true ->
        Z.land w (Z.lor 0xC0 0x3F) = Z.land v (Z.lor 0xC0 0x3F) ->
        dp83tc81x_cable_test_report_trans w s
          = dp83tc81x_cable_test_report_trans v s)
  /\ dp83tc81x_cable_test_report_trans 0xC8 s
       = (ETHTOOL_A_CABLE_RESULT_CODE_OPEN,
          advanced s (mdio s) [EvFaultLength ETHTOOL_A_CABLE_PAIR_A 800])
  /\ dp83tc81x_cable_test_report_trans 0x88 s
       = (ETHTOOL_A_CABLE_RESULT_CODE_SAME_SHORT,
          advanced s (mdio s) [EvFaultLength ETHTOOL_A_CABLE_PAIR_A 800]).
Proof.
  split; [|split; [|split]].
  - intros v H7. rewrite report_trans_eq, H7.
    apply testbit_7_nonzero, Z.eqb_neq in H7. now rewrite H7.
  - intros v w H7 E. change (Z.lor 0xC0 0x3F) with 0xFF in E.
    assert (W7 : Z.testbit w 7 = true)
      by (rewrite (land_mask_testbit v w 0xFF 7 E); auto).
    rewrite !report_trans_eq, H7, W7.
    rewrite (land_mask_testbit v w 0xFF 6 E) by reflexivity.
    rewrite (land_mask_low6 v w E).
    apply testbit_7_nonzero, Z.eqb_neq in H7, W7. now rewrite H7, W7.
  - now rewrite report_trans_eq.
  - now rewrite report_trans_eq.
Qed.

(** ** Polling the cable test *)

(** C3. When the status read shows the done bit (bit 1) and the fail bit
    (bit 0) both set, [get_status] returns [-EINVAL] with [finished]
    false, and the device is left as it was right after that one read:
    the trace gains the status read and nothing else, so the result
    register is not read and nothing is published. *)
Theorem get_status_done_fail (s : phy_device B) :
  Z.testbit (next_read ops MMD1F DP83TC81x_CDCR s) 1 = true ->
  Z.testbit (next_read ops MMD1F DP83TC81x_CDCR s) 0 = true ->
  dp83tc81x_cable_test_get_status ops s
    = ((- EINVAL, false), snd (phy_read_mmd ops MMD1F DP83TC81x_CDCR s))
  /\ trace (snd (dp83tc81x_cable_test_get_status ops s))
     = trace s ++ [EvReadMmd MMD1F DP83TC81x_CDCR
                     (next_read ops MMD1F DP83TC81x_CDCR s)].
Proof.
  intros Hd Hf. rewrite get_status_eq. cbv zeta. rewrite Hd, Hf.
  split; [reflexivity|]. now rewrite phy_read_mmd_eq.
Qed.

(** C4. When the status read shows done set and fail clear,
    [get_status] reports [finished] true and returns what the report step
    returns, run on the device as the status read left it.  The report
    step returns the error of a failed result-register read (nothing
    published); otherwise it returns [0] and the trace ends with the
    published classification of the decoded register value. *)
Theorem get_status_done_pass (s : phy_device B) :
  Z.testbit (next_read ops MMD1F DP83TC81x_CDCR s) 1 = true ->
  Z.testbit (next_read ops MMD1F DP83TC81x_CDCR s) 0 = false ->
  dp83tc81x_cable_test_get_status ops s
    = ((fst (dp83tc81x_cable_test_report ops
               (snd (phy_read_mmd ops MMD1F DP83TC81x_CDCR s))), true),
       snd (dp83tc81x_cable_test_report ops
              (snd (phy_read_mmd ops MMD1F DP83TC81x_CDCR s))))
  /\ (forall s1 : phy_device B,
        next_read ops MMD1F DP83TC81x_TDR_TC1 s1 < 0 ->
        dp83tc81x_cable_test_report ops s1
          = (next_read ops MMD1F DP83TC81x_TDR_TC1 s1,
             snd (phy_read_mmd ops MMD1F DP83TC81x_TDR_TC1 s1)))
  /\ (forall s1 : phy_device B,
        0 <= next_read ops MMD1F DP83TC81x_TDR_TC1 s1 ->
        fst (dp83tc81x_cable_test_report ops s1) = 0
        /\ snd (dp83tc81x_cable_test_report ops s1)
           = snd (ethnl_cable_test_result ETHTOOL_A_CABLE_PAIR_A
                    (fst (dp83tc81x_cable_test_report_trans
                            (to_u32 (next_read ops MMD1F DP83TC81x_TDR_TC1 s1))
                            (snd (phy_read_mmd ops MMD1F DP83TC81x_TDR_TC1 s1))))
                    (snd (dp83tc81x_cable_test_report_trans
                            (to_u32 (next_read ops MMD1F DP83TC81x_TDR_TC1 s1))
                            (snd (phy_read_mmd ops MMD1F DP83TC81x_TDR_TC1 s1)))))).
Proof.
  intros Hd Hf. split; [|split].
  - rewrite get_status_eq. cbv zeta. now rewrite Hd, Hf.
  - intros s1 Hv. rewrite report_eq. cbv zeta.
    apply Z.ltb_lt in Hv. now rewrite Hv.
  - intros s1 Hv. rewrite report_eq. cbv zeta.
    apply Z.ltb_ge in Hv. rewrite Hv. split; reflexivity.
Qed.

Lemma get_status_not_done (s : phy_device B) :
  Z.testbit (next_read ops MMD1F DP83TC81x_CDCR s) 1 = false ->
  dp83tc81x_cable_test_get_status ops s
    = ((0, false),
       advanced s (snd (mdio_read_mmd ops MMD1F DP83TC81x_CDCR (mdio s)))
         [EvReadMmd MMD1F DP83TC81x_CDCR
            (next_read ops MMD1F DP83TC81x_CDCR s)]).
Proof.
  intros Hd. rewrite get_status_eq. cbv zeta. rewrite Hd.
  now rewrite phy_read_mmd_eq.
Qed.

Lemma status_reads_only_reads (n : nat) (b : B) :
  Forall (fun e => exists v, e = EvReadMmd MMD1F DP83TC81x_CDCR v)
    (fst (status_reads ops n b)).
Proof.
  revert b. induction n as [|n IH]; intros b; simpl.
  - constructor.
  - destruct (mdio_read_mmd ops MMD1F DP83TC81x_CDCR b) as [v b'].
    specialize (IH b'). destruct (status_reads ops n b') as [evs b''].
    simpl in *. constructor; eauto.
Qed.

(** C5. While the done bit (bit 1) reads clear, [get_status] returns [0]
    with [finished] false and leaves the device as it was but for the
    bus state and one status-register read in the trace; and so does
    every one of [n] calls in a row: the trace gains one status read per
    call and nothing else (no write, no publication), and the private
    data are untouched. *)
Theorem get_status_polling_idempotent (s : phy_device B) :
  (Z.testbit (next_read ops MMD1F DP83TC81x_CDCR s) 1 = false ->
   dp83tc81x_cable_test_get_status ops s
     = ((0, false),
        advanced s (snd (mdio_read_mmd ops MMD1F DP83TC81x_CDCR (mdio s)))
          [EvReadMmd MMD1F DP83TC81x_CDCR
             (next_read ops MMD1F DP83TC81x_CDCR s)]))
  /\ (forall n : nat,
        done_clear_for ops n (mdio s) = true ->
        poll_status ops n s
          = (repeat (0, false) n,
             advanced s (snd (status_reads ops n (mdio s)))
               (fst (status_reads ops n (mdio s))))
        /\ Forall (fun e => exists v, e = EvReadMmd MMD1F DP83TC81x_CDCR v)
             (fst (status_reads ops n (mdio s)))
        /\ priv (snd (poll_status ops n s)) = priv s).
Proof.
  split; [apply get_status_not_done|].
  intros n H.
  assert (E : poll_status ops n s
    = (repeat (0, false) n,
       advanced s (snd (status_reads ops n (mdio s)))
         (fst (status_reads ops n (mdio s))))).
  { revert s H. induction n as [|n IH]; intros s H.
    - simpl. unfold mret. now rewrite advanced_nil.
    - simpl in H |- *.
      destruct (mdio_read_mmd ops MMD1F DP83TC81x_CDCR (mdio s))
        as [v b'] eqn:Er.
      apply andb_true_iff in H as [Hv Hn].
      apply negb_true_iff in Hv.
      assert (Hnext : next_read ops MMD1F DP83TC81x_CDCR s = v)
        by (unfold next_read; now rewrite Er).
      unfold mbind at 1. rewrite get_status_not_done by now rewrite Hnext.
      rewrite Er, Hnext. cbn [snd].
      unfold mbind at 1.
      rewrite (IH (advanced s b' [EvReadMmd MMD1F DP83TC81x_CDCR v]))
        by exact Hn.
      cbn [mdio advanced].
      destruct (status_reads ops n b') as [evs b''].
      unfold mret. cbn [fst snd]. now rewrite advanced_advanced. }
  split; [exact E | split].
  - apply status_reads_only_reads.
  - now rewrite E.
Qed.

(** ** Starting the cable test *)

Lemma write_seq_advanced (l : list dp83tc81x_init_reg) (s : phy_device B) :
  exists b evs,
    snd (dp83tc81x_write_seq ops l s) = advanced s b evs.
Proof.
  revert s. induction l as [|r rest IH]; intros s; simpl.
  - exists (mdio s), []. unfold mret. simpl. now rewrite advanced_nil.
  - unfold mbind. rewrite phy_write_mmd_eq.
    destruct (nonzero _).
    + unfold mret. cbn [snd]. eauto.
    + destruct (IH (advanced s
                  (snd (mdio_write_mmd ops (MMD r) (reg r) (val r) (mdio s)))
                  [EvWriteMmd (MMD r) (reg r) (val r)
                     (fst (mdio_write_mmd ops (MMD r) (reg r) (val r)
                             (mdio s)))])) as (b & evs & E).
      rewrite advanced_advanced in E. eauto.
Qed.

(** C7. [cable_test_start] returns [0] for every behaviour of the bus,
    so also when configuration writes or the start command fail; and it
    always ends by writing the TDR start bit to the control register and
    sleeping 100 ms, touching nothing but the bus and the trace. *)
Theorem cable_test_start_returns_zero (s : phy_device B) :
  fst (dp83tc81x_cable_test_start ops s) = 0
  /\ exists b evs r,
       snd (dp83tc81x_cable_test_start ops s)
         = advanced s b
             (evs ++ [EvWriteMmd MMD1F DP83TC81x_CDCR
                        DP83TC81x_TDR_START_BIT r; EvDelay 100]).
Proof.
  assert (E : exists b evs r,
    dp83tc81x_cable_test_start ops s
      = (0, advanced s b
              (evs ++ [EvWriteMmd MMD1F DP83TC81x_CDCR
                         DP83TC81x_TDR_START_BIT r; EvDelay 100]))).
  { destruct (write_seq_advanced DP83TC81x_tdr_config_init s)
      as (b & evs & E).
    unfold dp83tc81x_cable_test_start, mbind.
    destruct (dp83tc81x_write_seq ops DP83TC81x_tdr_config_init s)
      as [r0 s1]. cbn [snd] in E. subst s1.
    rewrite phy_write_mmd_eq. unfold msleep, mret. rewrite emit_eq.
    rewrite !advanced_advanced. cbn [mdio advanced app].
    now eexists _, evs, _. }
  destruct E as (b & evs & r & E). rewrite E. split; [reflexivity|].
  now exists b, evs, r.
Qed.

(** ** Signal quality *)

(** C8. When the read of the DSP register succeeds, [sqi] returns bits
    3:1 of the value read, a number between 0 and 7; [sqi_max] is 7 on
    every call and leaves the device alone. *)
Theorem sqi_range (s : phy_device B) :
  0 <= next_read ops MMD1F DP83TC81x_dsp_reg_71 s ->
  fst (dp83tc81x_sqi ops s)
    = Z.land (Z.shiftr (next_read ops MMD1F DP83TC81x_dsp_reg_71 s) 1) 0x7
  /\ 0 <= fst (dp83tc81x_sqi ops s) <= 7
  /\ (forall i, 0 <= i ->
        Z.testbit (fst (dp83tc81x_sqi ops s)) i
          = (i <? 3) && Z.testbit
                          (next_read ops MMD1F DP83TC81x_dsp_reg_71 s) (i + 1))
  /\ dp83tc81x_sqi_max s = (7, s).
Proof.
  intros Hv.
  assert (E : fst (dp83tc81x_sqi ops s)
    = Z.land (Z.shiftr (next_read ops MMD1F DP83TC81x_dsp_reg_71 s) 1) 0x7).
  { unfold dp83tc81x_sqi, mbind. rewrite phy_read_mmd_eq.
    apply Z.ltb_ge in Hv. now rewrite Hv. }
  rewrite E. split; [reflexivity | split; [|split]].
  - pose proof (Z.land_ones
      (Z.shiftr (next_read ops MMD1F DP83TC81x_dsp_reg_71 s) 1) 3
      ltac:(lia)) as L.
    change (Z.ones 3) with 0x7 in L. change (2 ^ 3) with 8 in L.
    rewrite L.
    pose proof (Z.mod_pos_bound
      (Z.shiftr (next_read ops MMD1F DP83TC81x_dsp_reg_71 s) 1) 8
      ltac:(lia)). lia.
  - intros i Hi. rewrite Z.land_spec, Z.shiftr_spec by assumption.
    change 0x7 with (Z.ones 3).
    rewrite Z.testbit_ones_nonneg by lia. apply andb_comm.
  - reflexivity.
Qed.

(** ** Strap pins *)

Lemma read_straps_priv (s : phy_device B) :
  priv (snd (dp83tc81x_read_straps ops s))
  = if next_read ops MMD1F DP83TC81x_STRAP s <? 0 then priv s
    else mk_private (chip (priv s))
           (is_master (priv s)
            || Z.testbit (next_read ops MMD1F DP83TC81x_STRAP s) 9)
           (is_rgmii (priv s)
            || Z.testbit (next_read ops MMD1F DP83TC81x_STRAP s) 7)
           (is_sgmii (priv s)).
Proof.
  unfold dp83tc81x_read_straps, mbind at 1. rewrite phy_read_mmd_eq.
  unfold DP83TC81x_MASTER_MODE, DP83TC81x_RGMII_IS_EN.
  rewrite !nonzero_land_BIT by lia.
  set (v := next_read ops MMD1F DP83TC81x_STRAP s).
  destruct (v <? 0); [reflexivity|].
  destruct s as [[c m r g] a sp d su b t].
  destruct (Z.testbit v 9), (Z.testbit v 7), m, r; reflexivity.
Qed.

(** C9. A strap read never clears a role flag: [is_master] and
    [is_rgmii] that are true stay true (whether the read succeeds or
    fails), and after a successful read a flag whose strap bit (bit 9 for
    master, bit 7 for RGMII) is clear keeps the value it had. *)
Theorem read_straps_only_sets (s : phy_device B) :
  (is_master (priv s) = true ->
   is_master (priv (snd (dp83tc81x_read_straps ops s))) = true)
  /\ (is_rgmii (priv s) = true ->
      is_rgmii (priv (snd (dp83tc81x_read_straps ops s))) = true)
  /\ (0 <= next_read ops MMD1F DP83TC81x_STRAP s ->
      Z.testbit (next_read ops MMD1F DP83TC81x_STRAP s) 9 = false ->
      is_master (priv (snd (dp83tc81x_read_straps ops s)))
        = is_master (priv s))
  /\ (0 <= next_read ops MMD1F DP83TC81x_STRAP s ->
      Z.testbit (next_read ops MMD1F DP83TC81x_STRAP s) 7 = false ->
      is_rgmii (priv (snd (dp83tc81x_read_straps ops s)))
        = is_rgmii (priv s)).
Proof.
  rewrite read_straps_priv.
  destruct (next_read ops MMD1F DP83TC81x_STRAP s <? 0) eqn:Hneg.
  - apply Z.ltb_lt in Hneg. repeat split; auto; intros; lia.
  - cbn [is_master is_rgmii]. repeat split.
    + intros ->. reflexivity.
    + intros ->. reflexivity.
    + intros _ ->. apply orb_false_r.
    + intros _ ->. apply orb_false_r.
Qed.

End DriverFacts.

(** ** Link status *)

(** C10. Once [genphy_read_status] has returned [0], [read_status]
    returns [0] whatever the master/slave read returns; the device is the
    one that read leaves behind. *)
Theorem read_status_discards_master_slave {B : Type}
  (genphy_read_status genphy_c45_pma_baset1_read_master_slave
     : M (phy_device B) Z) (s : phy_device B) :
  fst (genphy_read_status s) = 0 ->
  dp83tc81x_read_status genphy_read_status
    genphy_c45_pma_baset1_read_master_slave s
  = (0, snd (genphy_c45_pma_baset1_read_master_slave
               (snd (genphy_read_status s)))).
Proof.
  intros H. unfold dp83tc81x_read_status, mbind, mret.
  destruct (genphy_read_status s) as [r s1]. cbn [fst snd] in *. subst r.
  cbn [nonzero Z.eqb negb].
  now destruct (genphy_c45_pma_baset1_read_master_slave s1).
Qed.

(** * Further properties of the driver *)

Lemma nonzero_false (z : Z) : nonzero z = false -> z = 0.
Proof.
  unfold nonzero. intros H. apply negb_false_iff in H. now apply Z.eqb_eq.
Qed.

Lemma nonzero_true (z : Z) : nonzero z = true -> z <> 0.
Proof.
  unfold nonzero. intros H. apply negb_true_iff in H. now apply Z.eqb_neq.
Qed.

Lemma advanced_inj_trace {B : Type} (s : phy_device B) (b b' : B)
  (evs evs' : list event) :
  advanced s b evs = advanced s b' evs' -> evs = evs'.
Proof.
  unfold advanced. intros H. injection H as _ H.
  now apply app_inv_head in H.
Qed.

Section TableWrites.

Context {B : Type}.
Variable ops : mdio_bus_ops B.

Lemma write_seq_cons (r : dp83tc81x_init_reg)
  (rest : list dp83tc81x_init_reg) (s : phy_device B) :
  dp83tc81x_write_seq ops (r :: rest) s
  = if nonzero (fst (mdio_write_mmd ops (MMD r) (reg r) (val r) (mdio s)))
    then phy_write_mmd ops (MMD r) (reg r) (val r) s
    else dp83tc81x_write_seq ops rest
           (snd (phy_write_mmd ops (MMD r) (reg r) (val r) s)).
Proof.
  cbn [dp83tc81x_write_seq]. unfold mbind at 1.
  rewrite phy_write_mmd_eq. cbn [fst snd].
  now destruct (nonzero _).
Qed.

Lemma write_seq_shape (l : list dp83tc81x_init_reg) (s : phy_device B) :
  exists b,
    (fst (dp83tc81x_write_seq ops l s) = 0
     /\ snd (dp83tc81x_write_seq ops l s) = advanced s b (map written_ok l))
    \/ (fst (dp83tc81x_write_seq ops l s) <> 0
        /\ exists l1 x l2,
             l = l1 ++ x :: l2
             /\ snd (dp83tc81x_write_seq ops l s)
                = advanced s b
                    (map written_ok l1
                     ++ [EvWriteMmd (MMD x) (reg x) (val x)
                           (fst (dp83tc81x_write_seq ops l s))])).
Proof.
  revert s. induction l as [|r rest IH]; intros s.
  - exists (mdio s). left. cbn. unfold mret. cbn.
    now rewrite advanced_nil.
  - rewrite write_seq_cons.
    destruct (nonzero _) eqn:Hw.
    + apply nonzero_true in Hw. rewrite phy_write_mmd_eq. cbn [fst snd].
      exists (snd (mdio_write_mmd ops (MMD r) (reg r) (val r) (mdio s))).
      right. split; [exact Hw|]. now exists [], r, rest.
    + apply nonzero_false in Hw. rewrite phy_write_mmd_eq.
      cbn [snd]. rewrite Hw.
      destruct (IH (advanced s
                      (snd (mdio_write_mmd ops (MMD r) (reg r) (val r)
                              (mdio s)))
                      [EvWriteMmd (MMD r) (reg r) (val r) 0]))
        as (b & [[H0 E]|(Hn & l1 & x & l2 & -> & E)]); exists b.
      * left. split; [exact H0|].
        rewrite E, advanced_advanced. reflexivity.
      * right. split; [exact Hn|]. exists (r :: l1), x, l2.
        split; [reflexivity|]. rewrite E, advanced_advanced. reflexivity.
Qed.

(** X1. When [write_seq] returns [0] it has written every entry of the
    table, in table order, each write returning [0], and did nothing
    else; for the empty table that is no access at all. *)
Theorem write_seq_success (l : list dp83tc81x_init_reg) (s : phy_device B) :
  fst (dp83tc81x_write_seq ops l s) = 0 ->
  exists b,
    snd (dp83tc81x_write_seq ops l s) = advanced s b (map written_ok l).
Proof.
  intros H. destruct (write_seq_shape l s) as (b & [[_ E]|[Hn _]]).
  - now exists b.
  - contradiction.
Qed.

(** X2. When [write_seq] returns a value other than [0], that value is
    the result of one write of the table; the entries before it were
    written in order with result [0], and no entry after it was
    written. *)
Theorem write_seq_failure (l : list dp83tc81x_init_reg) (s : phy_device B) :
  fst (dp83tc81x_write_seq ops l s) <> 0 ->
  exists b l1 x l2,
    l = l1 ++ x :: l2
    /\ snd (dp83tc81x_write_seq ops l s)
       = advanced s b
           (map written_ok l1
            ++ [EvWriteMmd (MMD x) (reg x) (val x)
                  (fst (dp83tc81x_write_seq ops l s))]).
Proof.
  intros H.
  destruct (write_seq_shape l s)
    as (b & [[H0 _]|(_ & l1 & x & l2 & El & E)]).
  - contradiction.
  - now exists b, l1, x, l2.
Qed.

(** X3. Writing a table made of two parts is writing the first part
    and, only if that returned [0], the second part from where the first
    one left the device. *)
Theorem write_seq_app (l1 l2 : list dp83tc81x_init_reg) (s : phy_device B) :
  dp83tc81x_write_seq ops (l1 ++ l2) s
  = if nonzero (fst (dp83tc81x_write_seq ops l1 s))
    then dp83tc81x_write_seq ops l1 s
    else dp83tc81x_write_seq ops l2 (snd (dp83tc81x_write_seq ops l1 s)).
Proof.
  revert s. induction l1 as [|r rest IH]; intros s.
  - reflexivity.
  - rewrite <- app_comm_cons, !write_seq_cons.
    destruct (nonzero (fst (mdio_write_mmd ops _ _ _ _))) eqn:Hw.
    + rewrite phy_write_mmd_eq. cbn [fst]. now rewrite Hw.
    + apply IH.
Qed.

End TableWrites.

Section StrapsAndReset.

Context {B : Type}.
Variable ops : mdio_bus_ops B.

Lemma read_straps_eq (s : phy_device B) :
  dp83tc81x_read_straps ops s
  = if next_read ops MMD1F DP83TC81x_STRAP s <? 0
    then phy_read_mmd ops MMD1F DP83TC81x_STRAP s
    else (0,
          mk_phy_device
            (mk_private (chip (priv s))
               (is_master (priv s)
                || Z.testbit (next_read ops MMD1F DP83TC81x_STRAP s) 9)
               (is_rgmii (priv s)
                || Z.testbit (next_read ops MMD1F DP83TC81x_STRAP s) 7)
               (is_sgmii (priv s)))
            (autoneg s) (speed s) (duplex s) (supported s)
            (snd (mdio_read_mmd ops MMD1F DP83TC81x_STRAP (mdio s)))
            (trace s
             ++ [EvReadMmd MMD1F DP83TC81x_STRAP
                   (next_read ops MMD1F DP83TC81x_STRAP s)])).
Proof.
  unfold dp83tc81x_read_straps, mbind at 1. rewrite phy_read_mmd_eq.
  unfold DP83TC81x_MASTER_MODE, DP83TC81x_RGMII_IS_EN.
  rewrite !nonzero_land_BIT by lia.
  set (v := next_read ops MMD1F DP83TC81x_STRAP s).
  destruct (v <? 0); [reflexivity|].
  destruct s as [[c m r g] a sp d su b t].
  destruct (Z.testbit v 9), (Z.testbit v 7), m, r; reflexivity.
Qed.

Lemma read_straps_nonpositive (s : phy_device B) :
  fst (dp83tc81x_read_straps ops s) <= 0.
Proof.
  rewrite read_straps_eq.
  destruct (Z.ltb_spec (next_read ops MMD1F DP83TC81x_STRAP s) 0).
  - rewrite phy_read_mmd_eq. cbn [fst]. lia.
  - cbn [fst]. lia.
Qed.

(** X4. [read_straps] returns the read error when the strap read fails
    and [0] otherwise, never a positive value.  A failed read leaves the
    private data as they were; in every case the chip type, [is_sgmii]
    and the link parameters keep their values, and the only access made
    is the one read of the strap register. *)
Theorem read_straps_result (s : phy_device B) :
  fst (dp83tc81x_read_straps ops s)
    = (if next_read ops MMD1F DP83TC81x_STRAP s <? 0
       then next_read ops MMD1F DP83TC81x_STRAP s else 0)
  /\ fst (dp83tc81x_read_straps ops s) <= 0
  /\ (next_read ops MMD1F DP83TC81x_STRAP s < 0 ->
      priv (snd (dp83tc81x_read_straps ops s)) = priv s)
  /\ chip (priv (snd (dp83tc81x_read_straps ops s))) = chip (priv s)
  /\ is_sgmii (priv (snd (dp83tc81x_read_straps ops s)))
     = is_sgmii (priv s)
  /\ trace (snd (dp83tc81x_read_straps ops s))
     = trace s ++ [EvReadMmd MMD1F DP83TC81x_STRAP
                     (next_read ops MMD1F DP83TC81x_STRAP s)]
  /\ (autoneg (snd (dp83tc81x_read_straps ops s)),
      speed (snd (dp83tc81x_read_straps ops s)),
      duplex (snd (dp83tc81x_read_straps ops s)),
      supported (snd (dp83tc81x_read_straps ops s)))
     = (autoneg s, speed s, duplex s, supported s).
Proof.
  rewrite read_straps_eq.
  destruct (next_read ops MMD1F DP83TC81x_STRAP s <? 0) eqn:Hv.
  - apply Z.ltb_lt in Hv. rewrite phy_read_mmd_eq. cbn.
    repeat split; auto; lia.
  - apply Z.ltb_ge in Hv. cbn. repeat split; auto; lia.
Qed.

(** X5. Reading the straps again changes nothing when the strap register
    still reads the same: the private data after the second read are
    those after the first. *)
Theorem read_straps_idempotent (s : phy_device B) :
  next_read ops MMD1F DP83TC81x_STRAP (snd (dp83tc81x_read_straps ops s))
    = next_read ops MMD1F DP83TC81x_STRAP s ->
  priv (snd (dp83tc81x_read_straps ops
               (snd (dp83tc81x_read_straps ops s))))
  = priv (snd (dp83tc81x_read_straps ops s)).
Proof.
  intros Hsame.
  rewrite (read_straps_eq (snd (dp83tc81x_read_straps ops s))), Hsame.
  rewrite (read_straps_eq s).
  destruct (next_read ops MMD1F DP83TC81x_STRAP s <? 0) eqn:Hv.
  - now rewrite !phy_read_mmd_eq.
  - cbn. now rewrite <- !orb_assoc, !orb_diag.
Qed.

Lemma reset_eq (hw_reset : bool) (s : phy_device B) :
  dp83tc81x_reset ops hw_reset s
  = if nonzero (fst (mdio_write_mmd ops MMD1F MII_DP83TC81x_RESET_CTRL
                       (if hw_reset then DP83TC81x_HW_RESET
                        else DP83TC81x_SW_RESET) (mdio s)))
    then phy_write_mmd ops MMD1F MII_DP83TC81x_RESET_CTRL
           (if hw_reset then DP83TC81x_HW_RESET else DP83TC81x_SW_RESET) s
    else (0,
          advanced s
            (snd (mdio_write_mmd ops MMD1F MII_DP83TC81x_RESET_CTRL
                    (if hw_reset then DP83TC81x_HW_RESET
                     else DP83TC81x_SW_RESET) (mdio s)))
            [EvWriteMmd MMD1F MII_DP83TC81x_RESET_CTRL
               (if hw_reset then DP83TC81x_HW_RESET
                else DP83TC81x_SW_RESET) 0;
             EvDelay 100]).
Proof.
  unfold dp83tc81x_reset, mbind at 1.
  destruct hw_reset; rewrite phy_write_mmd_eq; cbn [fst snd];
    (destruct (nonzero _) eqn:Hw; [reflexivity|]);
    apply nonzero_false in Hw; rewrite Hw;
    unfold mbind, mdelay, mret; rewrite emit_eq, advanced_advanced;
    reflexivity.
Qed.

Lemma phy_reset_eq (s : phy_device B) :
  dp83tc81x_phy_reset ops s
  = if fst (mdio_write_mmd ops MMD1F MII_DP83TC81x_RESET_CTRL
              DP83TC81x_HW_RESET (mdio s)) <? 0
    then phy_write_mmd ops MMD1F MII_DP83TC81x_RESET_CTRL
           DP83TC81x_HW_RESET s
    else dp83tc81x_read_straps ops
           (snd (phy_write_mmd ops MMD1F MII_DP83TC81x_RESET_CTRL
                   DP83TC81x_HW_RESET s)).
Proof.
  unfold dp83tc81x_phy_reset, mbind at 1.
  rewrite phy_write_mmd_eq. cbn [fst snd].
  destruct (_ <? 0); [reflexivity|].
  unfold mbind, mret.
  destruct (dp83tc81x_read_straps ops _) as [r s2] eqn:E.
  destruct (nonzero r) eqn:Hr; [reflexivity|].
  apply nonzero_false in Hr. now subst r.
Qed.

(** X6. The soft-reset callback [phy_reset] never returns a positive
    value.  When the reset write fails (negative result) it returns that
    error without reading the straps, the write being its only access;
    when the write does not fail, also with a positive result, it goes
    on to read the straps and returns what [read_straps] returns. *)
Theorem phy_reset_result (s : phy_device B) :
  fst (dp83tc81x_phy_reset ops s) <= 0
  /\ (fst (mdio_write_mmd ops MMD1F MII_DP83TC81x_RESET_CTRL
             DP83TC81x_HW_RESET (mdio s)) < 0 ->
      dp83tc81x_phy_reset ops s
      = phy_write_mmd ops MMD1F MII_DP83TC81x_RESET_CTRL
          DP83TC81x_HW_RESET s)
  /\ (0 <= fst (mdio_write_mmd ops MMD1F MII_DP83TC81x_RESET_CTRL
                  DP83TC81x_HW_RESET (mdio s)) ->
      dp83tc81x_phy_reset ops s
      = dp83tc81x_read_straps ops
          (snd (phy_write_mmd ops MMD1F MII_DP83TC81x_RESET_CTRL
                  DP83TC81x_HW_RESET s))).
Proof.
  rewrite phy_reset_eq.
  destruct (_ <? 0) eqn:Hw.
  - apply Z.ltb_lt in Hw. rewrite phy_write_mmd_eq. cbn [fst].
    repeat split; auto; lia.
  - apply Z.ltb_ge in Hw. repeat split; auto; try lia.
    apply read_straps_nonpositive.
Qed.

End StrapsAndReset.

Section CableTestFacts.

Context {B : Type}.
Variable ops : mdio_bus_ops B.

(** X7. The decode returns OK for the register value [0] and for no
    other value, and never returns CROSS_SHORT; when bit 7 is clear it
    publishes nothing and leaves the device as it is. *)
Theorem report_trans_ok_only_zero (v : Z) (s : phy_device B) :
  (fst (dp83tc81x_cable_test_report_trans v s)
     = ETHTOOL_A_CABLE_RESULT_CODE_OK <-> v = 0)
  /\ fst (dp83tc81x_cable_test_report_trans v s)
     <> ETHTOOL_A_CABLE_RESULT_CODE_CROSS_SHORT
  /\ (Z.testbit v 7 = false ->
      snd (dp83tc81x_cable_test_report_trans v s) = s).
Proof.
  rewrite report_trans_eq.
  destruct (Z.eqb_spec v 0) as [->|Hv].
  - cbn. split; [split; reflexivity | split; [discriminate | reflexivity]].
  - destruct (Z.testbit v 7), (Z.testbit v 6); cbn;
      (split; [split; [intros H; discriminate | intros H; contradiction]
              | split; [discriminate | intros H; (discriminate || reflexivity)]]).
Qed.

Lemma to_u32_small (v : Z) : 0 <= v < 2 ^ 32 -> to_u32 v = v.
Proof. intros H. unfold to_u32. now apply Z.mod_small. Qed.

(** X8. When the result register reads a value [v] of the [u32] range,
    the report step makes that one read, publishes a fault length exactly
    when bit 7 of [v] is set, and then publishes exactly one
    classification for pair A, as its last event.  A published fault
    length is a multiple of 100 and at most 6300. *)
Theorem report_publication (s : phy_device B) :
  0 <= next_read ops MMD1F DP83TC81x_TDR_TC1 s < 2 ^ 32 ->
  (exists b,
     snd (dp83tc81x_cable_test_report ops s)
     = advanced s b
         ([EvReadMmd MMD1F DP83TC81x_TDR_TC1
             (next_read ops MMD1F DP83TC81x_TDR_TC1 s)]
          ++ (if Z.testbit (next_read ops MMD1F DP83TC81x_TDR_TC1 s) 7
              then [EvFaultLength ETHTOOL_A_CABLE_PAIR_A
                      (Z.land (next_read ops MMD1F DP83TC81x_TDR_TC1 s)
                         0x3F * 100)]
              else [])
          ++ [EvResult ETHTOOL_A_CABLE_PAIR_A
                (fst (dp83tc81x_cable_test_report_trans
                        (next_read ops MMD1F DP83TC81x_TDR_TC1 s) s))]))
  /\ 0 <= Z.land (next_read ops MMD1F DP83TC81x_TDR_TC1 s) 0x3F * 100
       <= 6300
  /\ (Z.land (next_read ops MMD1F DP83TC81x_TDR_TC1 s) 0x3F * 100)
       mod 100 = 0.
Proof.
  intros Hv. split; [|split].
  - rewrite report_eq. cbv zeta.
    destruct (Z.ltb_spec (next_read ops MMD1F DP83TC81x_TDR_TC1 s) 0)
      as [Hneg|_]; [lia|].
    rewrite to_u32_small by assumption.
    rewrite phy_read_mmd_eq. cbn [snd].
    rewrite !report_trans_eq.
    set (v := next_read ops MMD1F DP83TC81x_TDR_TC1 s).
    exists (snd (mdio_read_mmd ops MMD1F DP83TC81x_TDR_TC1 (mdio s))).
    destruct (v =? 0) eqn:Hz.
    + apply Z.eqb_eq in Hz. rewrite Hz. cbn [fst snd].
      now rewrite advanced_advanced.
    + destruct (Z.testbit v 7); cbn [fst snd];
        now rewrite !advanced_advanced.
  - pose proof (land_low6_range
                  (next_read ops MMD1F DP83TC81x_TDR_TC1 s)). lia.
  - apply Z.mod_mul. lia.
Qed.

(** X9. [get_status] reports [finished] exactly when the status read
    shows the done bit (bit 1) set and the fail bit (bit 0) clear. *)
Theorem get_status_finished_iff (s : phy_device B) :
  snd (fst (dp83tc81x_cable_test_get_status ops s)) = true
  <-> Z.testbit (next_read ops MMD1F DP83TC81x_CDCR s) 1 = true
      /\ Z.testbit (next_read ops MMD1F DP83TC81x_CDCR s) 0 = false.
Proof.
  rewrite get_status_eq. cbv zeta.
  destruct (Z.testbit _ 1), (Z.testbit _ 0); cbn; split;
    try (intros [? ?]); try discriminate; auto.
Qed.

Lemma report_readonly (s : phy_device B) :
  fst (dp83tc81x_cable_test_report ops s) <= 0
  /\ exists b evs,
       snd (dp83tc81x_cable_test_report ops s) = advanced s b evs
       /\ forallb is_read_or_publication evs = true.
Proof.
  rewrite report_eq. cbv zeta. rewrite phy_read_mmd_eq.
  destruct (Z.ltb_spec (next_read ops MMD1F DP83TC81x_TDR_TC1 s) 0)
    as [Hneg|Hpos]; cbn [fst snd].
  - split; [lia|]. do 2 eexists. split; reflexivity.
  - split; [lia|]. rewrite report_trans_eq.
    destruct (_ =? 0); [|destruct (Z.testbit _ 7)]; cbn [fst snd];
      rewrite !advanced_advanced; do 2 eexists; split; reflexivity.
Qed.

(** X10. [get_status] never returns a positive value, and whatever the
    bus answers it only reads registers and publishes results: it writes
    no register, sleeps nowhere, and leaves the private data and the link
    parameters as they were. *)
Theorem get_status_readonly (s : phy_device B) :
  fst (fst (dp83tc81x_cable_test_get_status ops s)) <= 0
  /\ exists b evs,
       snd (dp83tc81x_cable_test_get_status ops s) = advanced s b evs
       /\ forallb is_read_or_publication evs = true.
Proof.
  rewrite get_status_eq. cbv zeta. rewrite phy_read_mmd_eq. cbn [snd].
  destruct (Z.testbit _ 1); cbn [negb fst snd].
  - destruct (Z.testbit _ 0); cbn [negb fst snd].
    + split; [unfold EINVAL; lia|]. do 2 eexists. split; reflexivity.
    + destruct (report_readonly
        (advanced s (snd (mdio_read_mmd ops MMD1F DP83TC81x_CDCR (mdio s)))
           [EvReadMmd MMD1F DP83TC81x_CDCR
              (next_read ops MMD1F DP83TC81x_CDCR s)]))
        as (Hr & b & evs & E & Hall).
      split; [exact Hr|]. rewrite E, advanced_advanced.
      do 2 eexists. split; [reflexivity|]. cbn. exact Hall.
  - split; [lia|]. do 2 eexists. split; reflexivity.
Qed.

(** X11. For every behaviour of the bus [sqi] is at most [sqi_max]; a
    failed read is returned as it is, and the read of the DSP register is
    the only access [sqi] makes. *)
Theorem sqi_le_sqi_max (s : phy_device B) :
  fst (dp83tc81x_sqi ops s) <= fst (dp83tc81x_sqi_max s)
  /\ (next_read ops MMD1F DP83TC81x_dsp_reg_71 s < 0 ->
      fst (dp83tc81x_sqi ops s)
        = next_read ops MMD1F DP83TC81x_dsp_reg_71 s)
  /\ snd (dp83tc81x_sqi ops s)
     = snd (phy_read_mmd ops MMD1F DP83TC81x_dsp_reg_71 s).
Proof.
  unfold dp83tc81x_sqi, dp83tc81x_sqi_max, mbind, mret.
  rewrite phy_read_mmd_eq. cbn [fst snd].
  destruct (Z.ltb_spec (next_read ops MMD1F DP83TC81x_dsp_reg_71 s) 0)
    as [Hneg|Hpos]; cbn [fst snd].
  - unfold MAX_SQI_VALUE. repeat split; auto; lia.
  - split; [|split; [lia | reflexivity]].
    pose proof (Z.land_ones
      (Z.shiftr (next_read ops MMD1F DP83TC81x_dsp_reg_71 s) 1) 3
      ltac:(lia)) as L.
    change (Z.ones 3) with 0x7 in L. change (2 ^ 3) with 8 in L.
    rewrite L. unfold MAX_SQI_VALUE.
    pose proof (Z.mod_pos_bound
      (Z.shiftr (next_read ops MMD1F DP83TC81x_dsp_reg_71 s) 1) 8
      ltac:(lia)). lia.
Qed.

(** X27. What [cable_test_start] does with the TDR configuration
    table.  When every write of the table returns [0], the whole table is
    written, then the start bit, then come the 100 ms of sleep.  When a
    write of the table fails, the entries after it are skipped, yet the
    start bit is still written and the call still sleeps and returns
    [0]: the test is started on a configuration that is incomplete. *)
Theorem cable_test_start_trace (s : phy_device B) :
  (fst (dp83tc81x_write_seq ops DP83TC81x_tdr_config_init s) = 0 ->
   exists b r,
     dp83tc81x_cable_test_start ops s
     = (0,
        advanced s b
          (map written_ok DP83TC81x_tdr_config_init
           ++ [EvWriteMmd MMD1F DP83TC81x_CDCR DP83TC81x_TDR_START_BIT r;
               EvDelay 100])))
  /\ (fst (dp83tc81x_write_seq ops DP83TC81x_tdr_config_init s) <> 0 ->
      exists b l1 x l2 r,
        DP83TC81x_tdr_config_init = l1 ++ x :: l2
        /\ dp83tc81x_cable_test_start ops s
           = (0,
              advanced s b
                (map written_ok l1
                 ++ [EvWriteMmd (MMD x) (reg x) (val x)
                       (fst (dp83tc81x_write_seq ops
                               DP83TC81x_tdr_config_init s));
                     EvWriteMmd MMD1F DP83TC81x_CDCR
                       DP83TC81x_TDR_START_BIT r;
                     EvDelay 100]))).
Proof.
  assert (E : dp83tc81x_cable_test_start ops s
    = (0,
       advanced
         (snd (phy_write_mmd ops MMD1F DP83TC81x_CDCR
                 DP83TC81x_TDR_START_BIT
                 (snd (dp83tc81x_write_seq ops DP83TC81x_tdr_config_init
                         s))))
         (mdio (snd (phy_write_mmd ops MMD1F DP83TC81x_CDCR
                       DP83TC81x_TDR_START_BIT
                       (snd (dp83tc81x_write_seq ops
                               DP83TC81x_tdr_config_init s)))))
         [EvDelay 100])).
  { unfold dp83tc81x_cable_test_start, mbind, msleep, mret.
    destruct (dp83tc81x_write_seq ops DP83TC81x_tdr_config_init s)
      as [r0 s1]. cbn [snd].
    destruct (phy_write_mmd ops _ _ _ s1) as [r1 s2]. cbn [snd].
    now rewrite emit_eq. }
  split; intros H.
  - destruct (write_seq_shape ops DP83TC81x_tdr_config_init s)
      as (b & [[_ Es]|[Hn _]]); [|contradiction].
    rewrite E, Es, phy_write_mmd_eq. cbn [snd mdio advanced].
    rewrite !advanced_advanced, <- ?app_assoc. cbn [app].
    do 2 eexists. reflexivity.
  - destruct (write_seq_shape ops DP83TC81x_tdr_config_init s)
      as (b & [[H0 _]|(_ & l1 & x & l2 & El & Es)]); [contradiction|].
    rewrite E, Es, phy_write_mmd_eq. cbn [snd mdio advanced].
    rewrite !advanced_advanced, <- ?app_assoc. cbn [app].
    do 5 eexists. split; [exact El|]. reflexivity.
Qed.

End CableTestFacts.

Section ChipInitFacts.

Context {B : Type}.
Variable ops : mdio_bus_ops B.

Lemma phy_set_bits_mmd_eq (devad regnum bits : Z) (s : phy_device B) :
  phy_set_bits_mmd ops devad regnum bits s =
  (fst (mdio_set_bits_mmd ops devad regnum bits (mdio s)),
   advanced s (snd (mdio_set_bits_mmd ops devad regnum bits (mdio s)))
     [EvSetBitsMmd devad regnum bits
        (fst (mdio_set_bits_mmd ops devad regnum bits (mdio s)))]).
Proof.
  unfold phy_set_bits_mmd, mbind, on_bus, emit, mret, advanced.
  now destruct (mdio_set_bits_mmd ops devad regnum bits (mdio s)).
Qed.

Lemma with_forced_link_advanced (s : phy_device B) (b : B)
  (evs : list event) :
  with_forced_link (advanced s b evs) = advanced (with_forced_link s) b evs.
Proof. reflexivity. Qed.

(** The table [chip_init] writes: it depends on the role alone. *)
Lemma chip_init_tables_eq (s : phy_device B) :
  chip_init_tables ops s
  = (fst (dp83tc81x_write_seq ops
            (if is_master (priv s) then DP83TC812_master_cs2_0_init
             else DP83TC812_slave_cs2_0_init) s),
     snd (phy_set_bits_mmd ops MMD1F 0x018B (BIT 6)
            (snd (dp83tc81x_write_seq ops
                    (if is_master (priv s) then DP83TC812_master_cs2_0_init
                     else DP83TC812_slave_cs2_0_init) s)))).
Proof.
  unfold chip_init_tables, mbind at 1, get_priv.
  destruct (is_master (priv s)); unfold mbind, mret;
    destruct (dp83tc81x_write_seq ops _ s) as [r s1]; cbn [fst snd];
    now destruct (phy_set_bits_mmd ops _ _ _ s1).
Qed.

Lemma chip_init_eq (s : phy_device B) :
  dp83tc81x_chip_init ops s
  = if nonzero (fst (dp83tc81x_reset ops true s))
    then dp83tc81x_reset ops true s
    else
      if (chip (priv s) =? DP83TC812_CT) || (chip (priv s) =? DP83TC813_CT)
         || (chip (priv s) =? DP83TC814_CT)
      then
        chip_init_finish ops
          (fst (chip_init_tables ops
                  (snd (phy_write_mmd ops MMD1 0x0834
                          (if is_master (priv s) then 0xc001 else 0x8001)
                          (with_forced_link
                             (snd (dp83tc81x_reset ops true s)))))))
          (snd (chip_init_tables ops
                  (snd (phy_write_mmd ops MMD1 0x0834
                          (if is_master (priv s) then 0xc001 else 0x8001)
                          (with_forced_link
                             (snd (dp83tc81x_reset ops true s)))))))
      else
        (- EINVAL,
         snd (phy_write_mmd ops MMD1 0x0834
                (if is_master (priv s) then 0xc001 else 0x8001)
                (with_forced_link (snd (dp83tc81x_reset ops true s))))).
Proof.
  assert (Hp : priv (snd (dp83tc81x_reset ops true s)) = priv s).
  { rewrite reset_eq. destruct (nonzero _); [|reflexivity].
    now rewrite phy_write_mmd_eq. }
  unfold dp83tc81x_chip_init, mbind at 1.
  destruct (dp83tc81x_reset ops true s) as [r0 s1]. cbn [fst snd] in *.
  destruct (nonzero r0); [reflexivity|].
  unfold mbind at 1, set_link_params. unfold mbind at 1,
    linkmode_set_bit_supported. cbn [priv autoneg speed duplex supported
                                     mdio trace].
  unfold mbind at 1, get_priv. cbn [priv].
  change (mk_phy_device (priv s1) AUTONEG_DISABLE SPEED_100 DUPLEX_FULL
            (Z.setbit (supported s1) ETHTOOL_LINK_MODE_100baseT_Full_BIT)
            (mdio s1) (trace s1)) with (with_forced_link s1).
  rewrite Hp. unfold mbind at 1.
  assert (Hp3 : forall v, priv (snd (phy_write_mmd ops MMD1 0x0834 v
                                       (with_forced_link s1))) = priv s).
  { intros v. rewrite phy_write_mmd_eq. cbn. exact Hp. }
  assert (Hw : (if is_master (priv s)
                then phy_write_mmd ops MMD1 0x0834 0xc001
                else phy_write_mmd ops MMD1 0x0834 0x8001)
               (with_forced_link s1)
             = phy_write_mmd ops MMD1 0x0834
                 (if is_master (priv s) then 0xc001 else 0x8001)
                 (with_forced_link s1))
    by now destruct (is_master (priv s)).
  rewrite Hw. specialize (Hp3 (if is_master (priv s) then 0xc001 else 0x8001)).
  destruct (phy_write_mmd ops MMD1 0x0834 _ (with_forced_link s1))
    as [w s3]. cbn [snd] in *.
  unfold mbind at 1, get_priv. rewrite Hp3.
  destruct (chip (priv s) =? DP83TC812_CT);
    [|destruct (chip (priv s) =? DP83TC813_CT);
      [|destruct (chip (priv s) =? DP83TC814_CT)]];
    cbn [orb]; try reflexivity;
    unfold mbind; now destruct (chip_init_tables ops s3).
Qed.

(** The five ways [chip_init] can end, each with the whole of what it
    did. *)
Lemma chip_init_cases (s : phy_device B) :
  (hw_reset_result ops s <> 0
   /\ dp83tc81x_chip_init ops s
      = phy_write_mmd ops MMD1F MII_DP83TC81x_RESET_CTRL
          DP83TC81x_HW_RESET s)
  \/ (hw_reset_result ops s = 0 /\ known_chip (chip (priv s)) = false
      /\ exists b r,
           dp83tc81x_chip_init ops s
           = (- EINVAL,
              advanced (with_forced_link s) b (chip_init_prologue s r)))
  \/ (hw_reset_result ops s = 0 /\ known_chip (chip (priv s)) = true
      /\ exists b r1 l1 x l2 e r2,
           e <> 0 /\ chip_init_table s = l1 ++ x :: l2
           /\ dp83tc81x_chip_init ops s
              = (e,
                 advanced (with_forced_link s) b
                   (chip_init_prologue s r1 ++ map written_ok l1
                    ++ [EvWriteMmd (MMD x) (reg x) (val x) e;
                        EvSetBitsMmd MMD1F 0x018B (BIT 6) r2])))
  \/ (hw_reset_result ops s = 0 /\ known_chip (chip (priv s)) = true
      /\ exists b r1 r2 e,
           e <> 0
           /\ dp83tc81x_chip_init ops s
              = (e,
                 advanced (with_forced_link s) b
                   (chip_init_prologue s r1
                    ++ map written_ok (chip_init_table s)
                    ++ [EvSetBitsMmd MMD1F 0x018B (BIT 6) r2;
                        EvDelay 10;
                        EvWriteMmd MMD1F MII_DP83TC81x_RESET_CTRL
                          DP83TC81x_SW_RESET e])))
  \/ (hw_reset_result ops s = 0 /\ known_chip (chip (priv s)) = true
      /\ exists b r1 r2,
           dp83tc81x_chip_init ops s
           = (0,
              advanced (with_forced_link s) b
                (chip_init_prologue s r1
                 ++ map written_ok (chip_init_table s)
                 ++ [EvSetBitsMmd MMD1F 0x018B (BIT 6) r2;
                     EvDelay 10;
                     EvWriteMmd MMD1F MII_DP83TC81x_RESET_CTRL
                       DP83TC81x_SW_RESET 0;
                     EvDelay 100]))).
Proof.
  rewrite chip_init_eq. fold (known_chip (chip (priv s))).
  assert (Hr : dp83tc81x_reset ops true s
    = if nonzero (hw_reset_result ops s)
      then phy_write_mmd ops MMD1F MII_DP83TC81x_RESET_CTRL
             DP83TC81x_HW_RESET s
      else (0,
            advanced s
              (snd (mdio_write_mmd ops MMD1F MII_DP83TC81x_RESET_CTRL
                      DP83TC81x_HW_RESET (mdio s)))
              [EvWriteMmd MMD1F MII_DP83TC81x_RESET_CTRL
                 DP83TC81x_HW_RESET 0; EvDelay 100]))
    by apply (reset_eq ops true s).
  rewrite Hr. clear Hr.
  destruct (nonzero (hw_reset_result ops s)) eqn:Hw0.
  { left. rewrite phy_write_mmd_eq. cbn [fst].
    fold (hw_reset_result ops s). rewrite Hw0.
    apply nonzero_true in Hw0. now split. }
  right. cbn [fst snd nonzero Z.eqb negb].
  apply nonzero_false in Hw0.
  rewrite with_forced_link_advanced, phy_write_mmd_eq. cbn [snd].
  rewrite advanced_advanced. cbn [app mdio advanced].
  set (b1 := snd (mdio_write_mmd ops MMD1F MII_DP83TC81x_RESET_CTRL
                    DP83TC81x_HW_RESET (mdio s))).
  set (r1 := fst (mdio_write_mmd ops MMD1 0x0834 _ b1)).
  set (b3 := snd (mdio_write_mmd ops MMD1 0x0834 _ b1)).
  fold (chip_init_prologue s r1).
  set (s3 := advanced (with_forced_link s) b3 (chip_init_prologue s r1)).
  destruct (known_chip (chip (priv s))) eqn:Hk.
  2:{ left. repeat split; auto. now exists b3, r1. }
  right. rewrite chip_init_tables_eq.
  change (if is_master (priv s3) then DP83TC812_master_cs2_0_init
          else DP83TC812_slave_cs2_0_init) with (chip_init_table s).
  cbn [fst snd]. unfold chip_init_finish.
  destruct (nonzero (fst (dp83tc81x_write_seq ops (chip_init_table s) s3)))
    eqn:Ht.
  - left. apply nonzero_true in Ht.
    destruct (write_seq_shape ops (chip_init_table s) s3)
      as (b & [[H0 _]|(_ & l1 & x & l2 & El & E)]); [contradiction|].
    repeat split; auto.
    rewrite E, phy_set_bits_mmd_eq. cbn [snd mdio advanced].
    unfold s3. rewrite !advanced_advanced. unfold mret.
    do 7 eexists. split; [exact Ht|]. split; [exact El|].
    rewrite <- !app_assoc. reflexivity.
  - right. apply nonzero_false in Ht.
    destruct (write_seq_shape ops (chip_init_table s) s3)
      as (b & [[_ E]|[Hn _]]); [|contradiction].
    rewrite E, phy_set_bits_mmd_eq. cbn [snd mdio advanced].
    unfold s3. rewrite !advanced_advanced.
    unfold mbind, mdelay. rewrite emit_eq, advanced_advanced.
    cbn [snd]. rewrite reset_eq. cbn [mdio advanced].
    destruct (nonzero _) eqn:Hsw.
    + left. apply nonzero_true in Hsw. repeat split; auto.
      rewrite phy_write_mmd_eq. cbn [mdio advanced].
      rewrite advanced_advanced.
      do 4 eexists. split; [exact Hsw|].
      rewrite <- !app_assoc. reflexivity.
    + right. repeat split; auto.
      rewrite advanced_advanced.
      do 3 eexists. rewrite <- !app_assoc. reflexivity.
Qed.

(** X12. When the hardware-reset write does not return [0],
    [chip_init] returns its result and stops there: that write is its
    only access, no delay follows, and the link parameters and private
    data are as before. *)
Theorem chip_init_reset_failure (s : phy_device B) :
  hw_reset_result ops s <> 0 ->
  dp83tc81x_chip_init ops s
  = (hw_reset_result ops s,
     advanced s
       (snd (mdio_write_mmd ops MMD1F MII_DP83TC81x_RESET_CTRL
               DP83TC81x_HW_RESET (mdio s)))
       [EvWriteMmd MMD1F MII_DP83TC81x_RESET_CTRL DP83TC81x_HW_RESET
          (hw_reset_result ops s)]).
Proof.
  intros H.
  destruct (chip_init_cases s)
    as [[_ E]|[[H0 _]|[[H0 _]|[[H0 _]|[H0 _]]]]]; try contradiction.
  rewrite E. apply phy_write_mmd_eq.
Qed.

(** X13. For a chip type other than the three known ones, [chip_init]
    returns [-EINVAL], but only after the hardware reset, its 100 ms
    delay and the master/slave write to MMD1 register [0x0834] were
    made and the link parameters forced; no table is written. *)
Theorem chip_init_unknown_chip (s : phy_device B) :
  hw_reset_result ops s = 0 ->
  known_chip (chip (priv s)) = false ->
  exists b r,
    dp83tc81x_chip_init ops s
    = (- EINVAL, advanced (with_forced_link s) b (chip_init_prologue s r)).
Proof.
  intros H0 Hk.
  destruct (chip_init_cases s)
    as [[H _]|[(_ & _ & E)|[(_ & K & _)|[(_ & K & _)|(_ & K & _)]]]];
    try contradiction; congruence.
Qed.

(** X14. When [chip_init] returns [0], the chip type is a known one and
    the whole bring-up was carried out, in this order: hardware reset and
    its 100 ms delay, the master/slave write, every entry of the table of
    the device's role (each write returning [0]), the set-bits access to
    register [0x018B], a 10 ms delay, the soft reset and its 100 ms
    delay.  The link parameters are forced; nothing else changed. *)
Theorem chip_init_success (s : phy_device B) :
  fst (dp83tc81x_chip_init ops s) = 0 ->
  known_chip (chip (priv s)) = true
  /\ exists b r1 r2,
       snd (dp83tc81x_chip_init ops s)
       = advanced (with_forced_link s) b
           (chip_init_prologue s r1
            ++ map written_ok (chip_init_table s)
            ++ [EvSetBitsMmd MMD1F 0x018B (BIT 6) r2;
                EvDelay 10;
                EvWriteMmd MMD1F MII_DP83TC81x_RESET_CTRL
                  DP83TC81x_SW_RESET 0;
                EvDelay 100]).
Proof.
  intros H.
  destruct (chip_init_cases s)
    as [[H0 E]|[(_ & _ & b & r & E)
       |[(_ & _ & b & r1 & l1 & x & l2 & e & r2 & He & _ & E)
       |[(_ & _ & b & r1 & r2 & e & He & E)
       |(_ & K & b & r1 & r2 & E)]]]];
    rewrite E in H |- *; cbn [fst snd] in *.
  - rewrite phy_write_mmd_eq in H. cbn [fst] in H. contradiction.
  - discriminate.
  - contradiction.
  - contradiction.
  - split; [exact K|]. now exists b, r1, r2.
Qed.

(** X15. [chip_init] invents no error code but [-EINVAL]: a return
    value other than [0] is [-EINVAL] for an unknown chip type, or else
    the result of a register write found in the trace of the call. *)
Theorem chip_init_error_origin (s : phy_device B) :
  fst (dp83tc81x_chip_init ops s) <> 0 ->
  (known_chip (chip (priv s)) = false
   /\ fst (dp83tc81x_chip_init ops s) = - EINVAL)
  \/ exists evs devad regnum value,
       trace (snd (dp83tc81x_chip_init ops s)) = trace s ++ evs
       /\ In (EvWriteMmd devad regnum value
                (fst (dp83tc81x_chip_init ops s))) evs.
Proof.
  intros H.
  destruct (chip_init_cases s)
    as [[H0 E]|[(_ & K & b & r & E)
       |[(_ & _ & b & r1 & l1 & x & l2 & e & r2 & He & _ & E)
       |[(_ & _ & b & r1 & r2 & e & He & E)
       |(_ & K & b & r1 & r2 & E)]]]];
    rewrite E in H |- *; cbn [fst snd] in *.
  - right. rewrite phy_write_mmd_eq. cbn [fst snd advanced trace].
    do 4 eexists. split; [reflexivity|]. now left.
  - left. now split.
  - right. cbn [advanced trace with_forced_link].
    exists (chip_init_prologue s r1 ++ map written_ok l1
            ++ [EvWriteMmd (MMD x) (reg x) (val x) e;
                EvSetBitsMmd MMD1F 0x018B (BIT 6) r2]),
      (MMD x), (reg x), (val x).
    split; [reflexivity|].
    apply in_or_app. right. apply in_or_app. right. now left.
  - right. cbn [advanced trace with_forced_link].
    do 4 eexists. split; [reflexivity|].
    apply in_or_app. right. apply in_or_app. right.
    right. right. now left.
  - contradiction.
Qed.

Lemma chip_init_priv (s : phy_device B) :
  priv (snd (dp83tc81x_chip_init ops s)) = priv s.
Proof.
  destruct (chip_init_cases s)
    as [[H0 E]|[(_ & K & b & r & E)
       |[(_ & _ & b & r1 & l1 & x & l2 & e & r2 & He & _ & E)
       |[(_ & _ & b & r1 & r2 & e & He & E)
       |(_ & K & b & r1 & r2 & E)]]]];
    rewrite E; try reflexivity.
  now rewrite phy_write_mmd_eq.
Qed.

Lemma chip_init_autoneg (s : phy_device B) :
  hw_reset_result ops s = 0 ->
  autoneg (snd (dp83tc81x_chip_init ops s)) = AUTONEG_DISABLE.
Proof.
  intros H.
  destruct (chip_init_cases s)
    as [[H0 E]|[(_ & K & b & r & E)
       |[(_ & _ & b & r1 & l1 & x & l2 & e & r2 & He & _ & E)
       |[(_ & _ & b & r1 & r2 & e & He & E)
       |(_ & K & b & r1 & r2 & E)]]]];
    try contradiction; now rewrite E.
Qed.

(** X16. [chip_init] never changes the private data.  Once the
    hardware-reset write has returned [0] the link parameters are forced
    (autonegotiation off, 100 Mb/s, full duplex, 100baseT-Full added to
    the supported modes) and stay so however the rest of the call ends. *)
Theorem chip_init_frame (s : phy_device B) :
  priv (snd (dp83tc81x_chip_init ops s)) = priv s
  /\ (hw_reset_result ops s = 0 ->
      autoneg (snd (dp83tc81x_chip_init ops s)) = AUTONEG_DISABLE
      /\ speed (snd (dp83tc81x_chip_init ops s)) = SPEED_100
      /\ duplex (snd (dp83tc81x_chip_init ops s)) = DUPLEX_FULL
      /\ supported (snd (dp83tc81x_chip_init ops s))
         = Z.setbit (supported s) ETHTOOL_LINK_MODE_100baseT_Full_BIT).
Proof.
  destruct (chip_init_cases s)
    as [[H0 E]|[(_ & K & b & r & E)
       |[(_ & _ & b & r1 & l1 & x & l2 & e & r2 & He & _ & E)
       |[(_ & _ & b & r1 & r2 & e & He & E)
       |(_ & K & b & r1 & r2 & E)]]]];
    rewrite E; cbn [snd]; try (split; [reflexivity|];
                               intros _; repeat split; reflexivity).
  rewrite phy_write_mmd_eq. split; [reflexivity|].
  intros H. contradiction.
Qed.

(** *** The chip type does not matter *)

Lemma with_chip_advanced (c : Z) (s : phy_device B) (b : B)
  (evs : list event) :
  advanced (with_chip c s) b evs = with_chip c (advanced s b evs).
Proof. reflexivity. Qed.

Lemma phy_write_mmd_with_chip (c devad regnum value : Z) (s : phy_device B) :
  phy_write_mmd ops devad regnum value (with_chip c s)
  = (fst (phy_write_mmd ops devad regnum value s),
     with_chip c (snd (phy_write_mmd ops devad regnum value s))).
Proof. now rewrite !phy_write_mmd_eq. Qed.

Lemma phy_set_bits_mmd_with_chip (c devad regnum bits : Z)
  (s : phy_device B) :
  phy_set_bits_mmd ops devad regnum bits (with_chip c s)
  = (fst (phy_set_bits_mmd ops devad regnum bits s),
     with_chip c (snd (phy_set_bits_mmd ops devad regnum bits s))).
Proof. now rewrite !phy_set_bits_mmd_eq. Qed.

Lemma write_seq_with_chip (c : Z) (l : list dp83tc81x_init_reg)
  (s : phy_device B) :
  dp83tc81x_write_seq ops l (with_chip c s)
  = (fst (dp83tc81x_write_seq ops l s),
     with_chip c (snd (dp83tc81x_write_seq ops l s))).
Proof.
  revert s. induction l as [|r rest IH]; intros s.
  - reflexivity.
  - rewrite !write_seq_cons. cbn [mdio with_chip].
    destruct (nonzero _).
    + apply phy_write_mmd_with_chip.
    + rewrite phy_write_mmd_with_chip. cbn [snd]. apply IH.
Qed.

Lemma reset_with_chip (c : Z) (hw_reset : bool) (s : phy_device B) :
  dp83tc81x_reset ops hw_reset (with_chip c s)
  = (fst (dp83tc81x_reset ops hw_reset s),
     with_chip c (snd (dp83tc81x_reset ops hw_reset s))).
Proof.
  rewrite !reset_eq. cbn [mdio with_chip].
  destruct (nonzero _); [apply phy_write_mmd_with_chip | reflexivity].
Qed.

Lemma chip_init_tables_with_chip (c : Z) (s : phy_device B) :
  chip_init_tables ops (with_chip c s)
  = (fst (chip_init_tables ops s),
     with_chip c (snd (chip_init_tables ops s))).
Proof.
  rewrite !chip_init_tables_eq. cbn [priv with_chip is_master].
  rewrite write_seq_with_chip. cbn [fst snd].
  now rewrite phy_set_bits_mmd_with_chip.
Qed.

Lemma chip_init_finish_with_chip (c ret : Z) (s : phy_device B) :
  chip_init_finish ops ret (with_chip c s)
  = (fst (chip_init_finish ops ret s),
     with_chip c (snd (chip_init_finish ops ret s))).
Proof.
  unfold chip_init_finish. destruct (nonzero ret); [reflexivity|].
  unfold mbind, mdelay. rewrite !emit_eq.
  rewrite with_chip_advanced. apply reset_with_chip.
Qed.

(** X17. The three known chip types are brought up alike: run on
    devices that differ in the chip type only, [chip_init] returns the
    same value and leaves devices that again differ in the chip type
    only, so the same register accesses were made with the same
    results. *)
Theorem chip_init_same_for_known_chips (c c' : Z) (s : phy_device B) :
  known_chip c = true -> known_chip c' = true ->
  dp83tc81x_chip_init ops (with_chip c' s)
  = (fst (dp83tc81x_chip_init ops (with_chip c s)),
     with_chip c' (snd (dp83tc81x_chip_init ops (with_chip c s)))).
Proof.
  intros Hc Hc'.
  assert (K : forall k, known_chip k = true ->
    dp83tc81x_chip_init ops (with_chip k s)
    = (fst (dp83tc81x_chip_init ops (with_chip DP83TC812_CT s)),
       with_chip k (snd (dp83tc81x_chip_init ops
                           (with_chip DP83TC812_CT s))))).
  { intros k Hk. rewrite !chip_init_eq.
    fold (known_chip (chip (priv (with_chip k s)))).
    cbn [priv with_chip chip is_master]. rewrite Hk.
    change (with_chip k s) with (with_chip k (with_chip DP83TC812_CT s)).
    rewrite (reset_with_chip k). cbn [fst snd orb Z.eqb DP83TC812_CT].
    destruct (nonzero _); [reflexivity|].
    change (with_forced_link (with_chip k ?x))
      with (with_chip k (with_forced_link x)).
    rewrite (phy_write_mmd_with_chip k). cbn [snd].
    rewrite (chip_init_tables_with_chip k). cbn [fst snd].
    apply chip_init_finish_with_chip. }
  rewrite (K c Hc), (K c' Hc'). reflexivity.
Qed.

End ChipInitFacts.

Section InterruptFacts.

Context {B : Type}.
Variable mii : mii_bus_ops B.

Lemma mii_accessed_accessed (d : attached_phy B) (b b' : B)
  (evs evs' : list mii_event) :
  mii_accessed (mii_accessed d b evs) b' evs'
  = mii_accessed d b' (evs ++ evs').
Proof. unfold mii_accessed. cbn. now rewrite app_assoc. Qed.

Lemma phy_read_eq (regnum : Z) (d : attached_phy B) :
  phy_read mii regnum d
  = (fst (mii_read mii regnum (mdio (core d))),
     mii_accessed d (snd (mii_read mii regnum (mdio (core d))))
       [EvRead regnum (fst (mii_read mii regnum (mdio (core d))))]).
Proof.
  unfold phy_read, mbind, lift, on_bus, log_mii, mret, mii_accessed.
  now destruct (mii_read mii regnum (mdio (core d))).
Qed.

Lemma phy_write_eq (regnum value : Z) (d : attached_phy B) :
  phy_write mii regnum value d
  = (fst (mii_write mii regnum (to_u16 value) (mdio (core d))),
     mii_accessed d
       (snd (mii_write mii regnum (to_u16 value) (mdio (core d))))
       [EvWrite regnum (to_u16 value)
          (fst (mii_write mii regnum (to_u16 value) (mdio (core d))))]).
Proof.
  unfold phy_write, mbind, lift, on_bus, log_mii, mret, mii_accessed.
  now destruct (mii_write mii regnum (to_u16 value) (mdio (core d))).
Qed.

Lemma mdio_core_accessed (d : attached_phy B) (b : B)
  (evs : list mii_event) :
  mdio (core (mii_accessed d b evs)) = b.
Proof. reflexivity. Qed.

Ltac mii_step E :=
  unfold mbind at 1 in E;
  first [rewrite phy_read_eq in E | rewrite phy_write_eq in E];
  rewrite ?mdio_core_accessed, ?mii_accessed_accessed in E;
  cbn [app] in E.

Ltac mii_exit E := unfold mret in E; injection E as <- <-.

Lemma config_intr_enabled_cases (d : attached_phy B) :
  interrupts d = true ->
  (fst (dp83tc81x_config_intr mii d) < 0
   /\ exists b pre e,
        snd (dp83tc81x_config_intr mii d) = mii_accessed d b (pre ++ [e])
        /\ mii_result e = fst (dp83tc81x_config_intr mii d))
  \/ exists b v1 e1 v2 e2 v3,
       0 <= v1 /\ 0 <= e1 /\ 0 <= v2 /\ 0 <= e2 /\ 0 <= v3
       /\ snd (dp83tc81x_config_intr mii d)
          = mii_accessed d b
              [EvRead MII_DP83TC81x_INT_STAT1 v1;
               EvWrite MII_DP83TC81x_INT_STAT1 (to_u16 (Z.lor v1 0xE8)) e1;
               EvRead MII_DP83TC81x_INT_STAT2 v2;
               EvWrite MII_DP83TC81x_INT_STAT2 (to_u16 (Z.lor v2 0xCC)) e2;
               EvRead MII_DP83TC81x_INT_STAT3 v3;
               EvWrite MII_DP83TC81x_INT_STAT3 (to_u16 (Z.lor v3 0x1D))
                 (fst (dp83tc81x_config_intr mii d))].
Proof.
  intros Hen.
  destruct (dp83tc81x_config_intr mii d) as [r d'] eqn:E. cbn [fst snd].
  unfold dp83tc81x_config_intr, mbind at 1, get_phydev in E.
  rewrite Hen in E. cbn [Bool.eqb PHY_INTERRUPT_ENABLED] in E.
  mii_step E.
  set (v1 := fst (mii_read mii MII_DP83TC81x_INT_STAT1 _)) in E.
  set (b1 := snd (mii_read mii MII_DP83TC81x_INT_STAT1 _)) in E.
  destruct (Z.ltb_spec v1 0) as [N1|P1].
  { mii_exit E. left. split; [exact N1|].
    now exists b1, [], (EvRead MII_DP83TC81x_INT_STAT1 v1). }
  mii_step E.
  set (e1 := fst (mii_write mii MII_DP83TC81x_INT_STAT1 _ _)) in E.
  set (b2 := snd (mii_write mii MII_DP83TC81x_INT_STAT1 _ _)) in E.
  destruct (Z.ltb_spec e1 0) as [N2|P2].
  { mii_exit E. left. split; [exact N2|].
    now exists b2, [EvRead MII_DP83TC81x_INT_STAT1 v1],
      (EvWrite MII_DP83TC81x_INT_STAT1 (to_u16 (Z.lor v1 0xE8)) e1). }
  mii_step E.
  set (v2 := fst (mii_read mii MII_DP83TC81x_INT_STAT2 _)) in E.
  set (b3 := snd (mii_read mii MII_DP83TC81x_INT_STAT2 _)) in E.
  destruct (Z.ltb_spec v2 0) as [N3|P3].
  { mii_exit E. left. split; [exact N3|].
    now exists b3,
      [EvRead MII_DP83TC81x_INT_STAT1 v1;
       EvWrite MII_DP83TC81x_INT_STAT1 (to_u16 (Z.lor v1 0xE8)) e1],
      (EvRead MII_DP83TC81x_INT_STAT2 v2). }
  mii_step E.
  set (e2 := fst (mii_write mii MII_DP83TC81x_INT_STAT2 _ _)) in E.
  set (b4 := snd (mii_write mii MII_DP83TC81x_INT_STAT2 _ _)) in E.
  destruct (Z.ltb_spec e2 0) as [N4|P4].
  { mii_exit E. left. split; [exact N4|].
    now exists b4,
      [EvRead MII_DP83TC81x_INT_STAT1 v1;
       EvWrite MII_DP83TC81x_INT_STAT1 (to_u16 (Z.lor v1 0xE8)) e1;
       EvRead MII_DP83TC81x_INT_STAT2 v2],
      (EvWrite MII_DP83TC81x_INT_STAT2 (to_u16 (Z.lor v2 0xCC)) e2). }
  mii_step E.
  set (v3 := fst (mii_read mii MII_DP83TC81x_INT_STAT3 _)) in E.
  set (b5 := snd (mii_read mii MII_DP83TC81x_INT_STAT3 _)) in E.
  destruct (Z.ltb_spec v3 0) as [N5|P5].
  { mii_exit E. left. split; [exact N5|].
    now exists b5,
      [EvRead MII_DP83TC81x_INT_STAT1 v1;
       EvWrite MII_DP83TC81x_INT_STAT1 (to_u16 (Z.lor v1 0xE8)) e1;
       EvRead MII_DP83TC81x_INT_STAT2 v2;
       EvWrite MII_DP83TC81x_INT_STAT2 (to_u16 (Z.lor v2 0xCC)) e2],
      (EvRead MII_DP83TC81x_INT_STAT3 v3). }
  mii_step E. mii_exit E. right.
  eexists _, v1, e1, v2, e2, v3. repeat (split; [assumption|]).
  reflexivity.
Qed.

Lemma config_intr_disabled_cases (d : attached_phy B) :
  interrupts d = false ->
  (fst (dp83tc81x_config_intr mii d) < 0
   /\ exists b pre e,
        snd (dp83tc81x_config_intr mii d) = mii_accessed d b (pre ++ [e])
        /\ mii_result e = fst (dp83tc81x_config_intr mii d))
  \/ exists b e1 e2,
       0 <= e1 /\ 0 <= e2
       /\ snd (dp83tc81x_config_intr mii d)
          = mii_accessed d b
              [EvWrite MII_DP83TC81x_INT_STAT1 0 e1;
               EvWrite MII_DP83TC81x_INT_STAT2 0 e2;
               EvWrite MII_DP83TC81x_INT_STAT3 0
                 (fst (dp83tc81x_config_intr mii d))].
Proof.
  intros Hen.
  destruct (dp83tc81x_config_intr mii d) as [r d'] eqn:E. cbn [fst snd].
  unfold dp83tc81x_config_intr, mbind at 1, get_phydev in E.
  rewrite Hen in E. cbn [Bool.eqb PHY_INTERRUPT_ENABLED] in E.
  mii_step E. change (to_u16 0) with 0 in E.
  set (e1 := fst (mii_write mii MII_DP83TC81x_INT_STAT1 _ _)) in E.
  set (b1 := snd (mii_write mii MII_DP83TC81x_INT_STAT1 _ _)) in E.
  destruct (Z.ltb_spec e1 0) as [N1|P1].
  { mii_exit E. left. split; [exact N1|].
    now exists b1, [], (EvWrite MII_DP83TC81x_INT_STAT1 0 e1). }
  mii_step E. change (to_u16 0) with 0 in E.
  set (e2 := fst (mii_write mii MII_DP83TC81x_INT_STAT2 _ _)) in E.
  set (b2 := snd (mii_write mii MII_DP83TC81x_INT_STAT2 _ _)) in E.
  destruct (Z.ltb_spec e2 0) as [N2|P2].
  { mii_exit E. left. split; [exact N2|].
    now exists b2, [EvWrite MII_DP83TC81x_INT_STAT1 0 e1],
      (EvWrite MII_DP83TC81x_INT_STAT2 0 e2). }
  mii_step E. change (to_u16 0) with 0 in E. mii_exit E. right.
  eexists _, e1, e2. repeat (split; [assumption|]). reflexivity.
Qed.

Lemma to_u16_lor_testbit (v m i : Z) :
  0 <= i < 16 ->
  Z.testbit (to_u16 (Z.lor v m)) i = Z.testbit v i || Z.testbit m i.
Proof.
  intros Hi. unfold to_u16.
  rewrite Z.mod_pow2_bits_low by lia. apply Z.lor_spec.
Qed.

(** X18. With interrupts enabled, a result of [config_intr] that is not
    negative means all three status registers went through a
    read-modify-write, in the order INT_STAT1, INT_STAT2, INT_STAT3:
    each value written is the value just read with the enable bits
    or-ed in ([0xE8], [0xCC], [0x1D]), cut to 16 bits, so below bit 16
    every bit that was set stays set; the value returned is the result
    of the last write.  Only clause-22 accesses are made. *)
Theorem config_intr_enable_success (d : attached_phy B) :
  interrupts d = true ->
  0 <= fst (dp83tc81x_config_intr mii d) ->
  (exists b v1 e1 v2 e2 v3,
     0 <= v1 /\ 0 <= e1 /\ 0 <= v2 /\ 0 <= e2 /\ 0 <= v3
     /\ snd (dp83tc81x_config_intr mii d)
        = mii_accessed d b
            [EvRead MII_DP83TC81x_INT_STAT1 v1;
             EvWrite MII_DP83TC81x_INT_STAT1 (to_u16 (Z.lor v1 0xE8)) e1;
             EvRead MII_DP83TC81x_INT_STAT2 v2;
             EvWrite MII_DP83TC81x_INT_STAT2 (to_u16 (Z.lor v2 0xCC)) e2;
             EvRead MII_DP83TC81x_INT_STAT3 v3;
             EvWrite MII_DP83TC81x_INT_STAT3 (to_u16 (Z.lor v3 0x1D))
               (fst (dp83tc81x_config_intr mii d))])
  /\ (forall v m i, 0 <= i < 16 -> Z.testbit v i = true ->
        Z.testbit (to_u16 (Z.lor v m)) i = true).
Proof.
  intros Hen Hr. split.
  - destruct (config_intr_enabled_cases d Hen) as [[Hneg _]|H];
      [lia | exact H].
  - intros v m i Hi Hv. rewrite to_u16_lor_testbit by assumption.
    now rewrite Hv.
Qed.


(** X20. With interrupts disabled, a result of [config_intr] that is
    not negative means [0] was written to INT_STAT1, INT_STAT2 and
    INT_STAT3, in this order and without reading any register; the value
    returned is the result of the third write. *)
Theorem config_intr_disable_success (d : attached_phy B) :
  interrupts d = false ->
  0 <= fst (dp83tc81x_config_intr mii d) ->
  exists b e1 e2,
    0 <= e1 /\ 0 <= e2
    /\ snd (dp83tc81x_config_intr mii d)
       = mii_accessed d b
           [EvWrite MII_DP83TC81x_INT_STAT1 0 e1;
            EvWrite MII_DP83TC81x_INT_STAT2 0 e2;
            EvWrite MII_DP83TC81x_INT_STAT3 0
              (fst (dp83tc81x_config_intr mii d))].
Proof.
  intros Hen Hr.
  destruct (config_intr_disabled_cases d Hen) as [[Hneg _]|H];
    [lia | exact H].
Qed.

End InterruptFacts.

Section ConfigInitFacts.

Context {B : Type}.
Variable ops : mdio_bus_ops B.
Variable mii : mii_bus_ops B.
Variable phy_get_internal_delay : bool -> Z.

Lemma lift_eq {A : Type} (m : M (phy_device B) A) (d : attached_phy B) :
  lift m d = (fst (m (core d)), with_core d (snd (m (core d)))).
Proof. unfold lift, with_core. now destruct (m (core d)). Qed.

Lemma config_init_sgmii_eq (d : attached_phy B) :
  config_init_sgmii ops mii d
  = if is_PHY_INTERFACE_MODE_SGMII (interface d)
    then
      (if fst (phy_write_mmd ops MMD1F MII_DP83TC81x_SGMII_CTRL
                 SGMII_CONFIG_VAL
                 (core (snd (phy_read mii MII_DP83TC81x_SGMII_CTRL d)))) <? 0
       then fst (phy_write_mmd ops MMD1F MII_DP83TC81x_SGMII_CTRL
                   SGMII_CONFIG_VAL
                   (core (snd (phy_read mii MII_DP83TC81x_SGMII_CTRL d))))
       else 0,
       with_core (snd (phy_read mii MII_DP83TC81x_SGMII_CTRL d))
         (snd (phy_write_mmd ops MMD1F MII_DP83TC81x_SGMII_CTRL
                 SGMII_CONFIG_VAL
                 (core (snd (phy_read mii MII_DP83TC81x_SGMII_CTRL d))))))
    else (0, d).
Proof.
  unfold config_init_sgmii, mbind at 1, get_phydev.
  destruct (is_PHY_INTERFACE_MODE_SGMII (interface d)); [|reflexivity].
  unfold mbind at 1.
  destruct (phy_read mii MII_DP83TC81x_SGMII_CTRL d) as [v d1].
  unfold mbind. rewrite lift_eq. cbn [fst snd].
  now destruct (_ <? 0).
Qed.

Lemma config_init_eq (d : attached_phy B) :
  dp83tc81x_config_init ops mii phy_get_internal_delay d
  = if nonzero (fst (dp83tc81x_chip_init ops (core d)))
    then lift (dp83tc81x_chip_init ops) d
    else
      if phy_interface_is_rgmii (interface d)
         && nonzero (rgmii_delay_bits (phy_get_internal_delay true)
                       (phy_get_internal_delay false))
      then
        if nonzero
             (fst (phy_set_bits_mmd ops MMD1 DP83TC81x_RGMII_ID_CTRL
                     (rgmii_delay_bits (phy_get_internal_delay true)
                        (phy_get_internal_delay false))
                     (snd (dp83tc81x_chip_init ops (core d)))))
        then
          lift (phy_set_bits_mmd ops MMD1 DP83TC81x_RGMII_ID_CTRL
                  (rgmii_delay_bits (phy_get_internal_delay true)
                     (phy_get_internal_delay false)))
            (snd (lift (dp83tc81x_chip_init ops) d))
        else
          config_init_sgmii ops mii
            (snd (lift (phy_set_bits_mmd ops MMD1 DP83TC81x_RGMII_ID_CTRL
                          (rgmii_delay_bits (phy_get_internal_delay true)
                             (phy_get_internal_delay false)))
                    (snd (lift (dp83tc81x_chip_init ops) d))))
      else
        config_init_sgmii ops mii (snd (lift (dp83tc81x_chip_init ops) d)).
Proof.
  unfold dp83tc81x_config_init, mbind at 1.
  rewrite !lift_eq. cbn [fst snd].
  destruct (nonzero (fst (dp83tc81x_chip_init ops (core d))));
    [reflexivity|].
  unfold mbind at 1, get_phydev. cbn [interface with_core].
  destruct (phy_interface_is_rgmii (interface d)); [|reflexivity].
  cbn [andb].
  destruct (nonzero (rgmii_delay_bits _ _)); [|reflexivity].
  unfold mbind. rewrite !lift_eq. cbn [fst snd core with_core].
  now destruct (nonzero _).
Qed.

(** X21. [config_init] is [chip_init] and nothing more when [chip_init]
    fails, whatever the interface, and when the interface is neither one
    of the RGMII modes nor SGMII: same return value, same device, no
    further access. *)
Theorem config_init_is_chip_init (d : attached_phy B) :
  fst (dp83tc81x_chip_init ops (core d)) <> 0
  \/ (phy_interface_is_rgmii (interface d) = false
      /\ is_PHY_INTERFACE_MODE_SGMII (interface d) = false) ->
  dp83tc81x_config_init ops mii phy_get_internal_delay d
  = (fst (dp83tc81x_chip_init ops (core d)),
     with_core d (snd (dp83tc81x_chip_init ops (core d)))).
Proof.
  intros H. rewrite config_init_eq, !lift_eq.
  destruct (nonzero (fst (dp83tc81x_chip_init ops (core d)))) eqn:Hc;
    [reflexivity|].
  apply nonzero_false in Hc.
  destruct H as [H|[Hr Hs]]; [contradiction|].
  rewrite Hr. cbn [andb snd]. rewrite config_init_sgmii_eq.
  cbn [interface with_core]. now rewrite Hs, Hc.
Qed.

Lemma rgmii_modes_not_sgmii (mode : phy_interface_t) :
  phy_interface_is_rgmii mode = true ->
  is_PHY_INTERFACE_MODE_SGMII mode = false.
Proof. now destruct mode. Qed.

Lemma rgmii_delay_bits_value (rx tx : Z) :
  rgmii_delay_bits rx tx
  = (if 0 <? rx then 2 else 0) + (if 0 <? tx then 1 else 0).
Proof.
  unfold rgmii_delay_bits.
  destruct (Z.leb_spec rx 0), (Z.leb_spec tx 0);
    destruct (Z.ltb_spec 0 rx), (Z.ltb_spec 0 tx); try lia; reflexivity.
Qed.

(** X22. On an RGMII interface, after a [chip_init] that returned [0]:
    the delay bits are 2 for a positive receive delay plus 1 for a
    positive transmit delay, a delay that is zero or an error counting as
    none.  With no bit to set [config_init] ends there with [0]; else it
    makes one set-bits access to MMD1 register [0x602] with those bits
    and returns its result.  The SGMII register is not touched. *)
Theorem config_init_rgmii (d : attached_phy B) :
  fst (dp83tc81x_chip_init ops (core d)) = 0 ->
  phy_interface_is_rgmii (interface d) = true ->
  rgmii_delay_bits (phy_get_internal_delay true)
    (phy_get_internal_delay false)
  = (if 0 <? phy_get_internal_delay true then 2 else 0)
    + (if 0 <? phy_get_internal_delay false then 1 else 0)
  /\ (phy_get_internal_delay true <= 0 ->
      phy_get_internal_delay false <= 0 ->
      dp83tc81x_config_init ops mii phy_get_internal_delay d
      = (0, with_core d (snd (dp83tc81x_chip_init ops (core d)))))
  /\ (0 < phy_get_internal_delay true
      \/ 0 < phy_get_internal_delay false ->
      dp83tc81x_config_init ops mii phy_get_internal_delay d
      = (fst (phy_set_bits_mmd ops MMD1 DP83TC81x_RGMII_ID_CTRL
                (rgmii_delay_bits (phy_get_internal_delay true)
                   (phy_get_internal_delay false))
                (snd (dp83tc81x_chip_init ops (core d)))),
         with_core d
           (snd (phy_set_bits_mmd ops MMD1 DP83TC81x_RGMII_ID_CTRL
                   (rgmii_delay_bits (phy_get_internal_delay true)
                      (phy_get_internal_delay false))
                   (snd (dp83tc81x_chip_init ops (core d))))))).
Proof.
  intros Hc Hr. pose proof (rgmii_modes_not_sgmii _ Hr) as Hs.
  split; [apply rgmii_delay_bits_value | split].
  - intros Hrx Htx. rewrite config_init_eq, Hc, Hr, !lift_eq.
    rewrite rgmii_delay_bits_value.
    destruct (Z.ltb_spec 0 (phy_get_internal_delay true)); [lia|].
    destruct (Z.ltb_spec 0 (phy_get_internal_delay false)); [lia|].
    cbn [nonzero Z.eqb negb andb Z.add snd].
    rewrite config_init_sgmii_eq. cbn [interface with_core].
    now rewrite Hs.
  - intros Hd. rewrite config_init_eq, Hc, Hr, !lift_eq.
    assert (Hnz : nonzero (rgmii_delay_bits (phy_get_internal_delay true)
                             (phy_get_internal_delay false)) = true).
    { rewrite rgmii_delay_bits_value.
      destruct (Z.ltb_spec 0 (phy_get_internal_delay true)),
        (Z.ltb_spec 0 (phy_get_internal_delay false));
        try reflexivity; lia. }
    rewrite Hnz. change (nonzero 0) with false.
    cbn [andb snd fst core with_core].
    set (sb := phy_set_bits_mmd ops MMD1 DP83TC81x_RGMII_ID_CTRL _ _).
    destruct (nonzero (fst sb)) eqn:Hsb; [reflexivity|].
    apply nonzero_false in Hsb.
    rewrite config_init_sgmii_eq. cbn [interface with_core].
    now rewrite Hs, Hsb.
Qed.



(** What [config_init] adds to [chip_init] stays on the bus and in the
    traces. *)
Lemma config_init_shape (d : attached_phy B) :
  exists b evs mevs,
    snd (dp83tc81x_config_init ops mii phy_get_internal_delay d)
    = mk_attached_phy
        (advanced (snd (dp83tc81x_chip_init ops (core d))) b evs)
        (interface d) (interrupts d) (phy_id d) (mii_trace d ++ mevs).
Proof.
  assert (Hw : forall (d1 : attached_phy B) c,
    with_core d1 c
    = mk_attached_phy (advanced c (mdio c) []) (interface d1)
        (interrupts d1) (phy_id d1) (mii_trace d1 ++ [])).
  { intros d1 c. unfold with_core. now rewrite advanced_nil, app_nil_r. }
  assert (Hs : forall d1 : attached_phy B,
    exists b evs mevs,
      snd (config_init_sgmii ops mii d1)
      = mk_attached_phy (advanced (core d1) b evs) (interface d1)
          (interrupts d1) (phy_id d1) (mii_trace d1 ++ mevs)).
  { intros d1. rewrite config_init_sgmii_eq.
    destruct (is_PHY_INTERFACE_MODE_SGMII (interface d1)).
    - rewrite phy_read_eq. cbn [snd core mii_accessed with_core].
      rewrite phy_write_mmd_eq. cbn [snd].
      do 3 eexists. unfold advanced, with_core. cbn. reflexivity.
    - cbn [snd]. exists (mdio (core d1)), [], [].
      rewrite advanced_nil, app_nil_r. now destruct d1. }
  rewrite config_init_eq, !lift_eq.
  destruct (nonzero (fst (dp83tc81x_chip_init ops (core d)))).
  { cbn [snd]. rewrite Hw. eauto. }
  destruct (phy_interface_is_rgmii (interface d)
            && nonzero (rgmii_delay_bits (phy_get_internal_delay true)
                          (phy_get_internal_delay false))).
  - cbn [snd core with_core].
    set (sb := phy_set_bits_mmd ops MMD1 DP83TC81x_RGMII_ID_CTRL _ _).
    assert (Hsb : exists b evs,
      snd sb = advanced (snd (dp83tc81x_chip_init ops (core d))) b evs).
    { unfold sb. rewrite phy_set_bits_mmd_eq. cbn [snd]. eauto. }
    destruct Hsb as (b1 & evs1 & Hsb).
    destruct (nonzero (fst sb)).
    + cbn [snd]. unfold with_core. cbn. rewrite Hsb.
      exists b1, evs1, []. now rewrite app_nil_r.
    + destruct (Hs (with_core
                      (with_core d (snd (dp83tc81x_chip_init ops (core d))))
                      (snd sb))) as (b & evs & mevs & E).
      rewrite E. cbn [core with_core interface interrupts phy_id mii_trace].
      rewrite Hsb, advanced_advanced. eauto.
  - cbn [snd].
    destruct (Hs (with_core d (snd (dp83tc81x_chip_init ops (core d)))))
      as (b & evs & mevs & E).
    rewrite E. cbn [core with_core interface interrupts phy_id mii_trace].
    eauto.
Qed.

Lemma config_init_priv (d : attached_phy B) :
  priv (core (snd (dp83tc81x_config_init ops mii phy_get_internal_delay d)))
  = priv (core d).
Proof.
  destruct (config_init_shape d) as (b & evs & mevs & E). rewrite E.
  cbn [core priv advanced]. apply chip_init_priv.
Qed.

Lemma probe_eq (d : attached_phy B) :
  dp83tc81x_probe ops mii phy_get_internal_delay true d
  = if next_read ops MMD1F DP83TC81x_STRAP (core d) <? 0
    then
      (next_read ops MMD1F DP83TC81x_STRAP (core d),
       with_core d
         (mk_phy_device (mk_private 0 false false false)
            (autoneg (core d)) (speed (core d)) (duplex (core d))
            (supported (core d))
            (snd (mdio_read_mmd ops MMD1F DP83TC81x_STRAP (mdio (core d))))
            (trace (core d)
             ++ [EvReadMmd MMD1F DP83TC81x_STRAP
                   (next_read ops MMD1F DP83TC81x_STRAP (core d))])))
    else
      if known_chip_id (phy_id d)
      then
        dp83tc81x_config_init ops mii phy_get_internal_delay
          (with_core d
             (mk_phy_device
                (mk_private (chip_of_id (phy_id d))
                   (Z.testbit (next_read ops MMD1F DP83TC81x_STRAP (core d))
                      9)
                   (Z.testbit (next_read ops MMD1F DP83TC81x_STRAP (core d))
                      7)
                   false)
                (autoneg (core d)) (speed (core d)) (duplex (core d))
                (supported (core d))
                (snd (mdio_read_mmd ops MMD1F DP83TC81x_STRAP
                        (mdio (core d))))
                (trace (core d)
                 ++ [EvReadMmd MMD1F DP83TC81x_STRAP
                       (next_read ops MMD1F DP83TC81x_STRAP (core d))])))
      else
        (- EINVAL,
         with_core d
           (mk_phy_device
              (mk_private 0
                 (Z.testbit (next_read ops MMD1F DP83TC81x_STRAP (core d)) 9)
                 (Z.testbit (next_read ops MMD1F DP83TC81x_STRAP (core d)) 7)
                 false)
              (autoneg (core d)) (speed (core d)) (duplex (core d))
              (supported (core d))
              (snd (mdio_read_mmd ops MMD1F DP83TC81x_STRAP (mdio (core d))))
              (trace (core d)
               ++ [EvReadMmd MMD1F DP83TC81x_STRAP
                     (next_read ops MMD1F DP83TC81x_STRAP (core d))]))).
Proof.
  unfold dp83tc81x_probe. cbn [negb]. unfold mbind at 1.
  rewrite lift_eq. cbn [fst snd update_priv core with_core].
  unfold mbind at 1. rewrite lift_eq. cbn [fst snd core with_core].
  rewrite read_straps_eq.
  change (next_read ops MMD1F DP83TC81x_STRAP
            (mk_phy_device (mk_private 0 false false false)
               (autoneg (core d)) (speed (core d)) (duplex (core d))
               (supported (core d)) (mdio (core d)) (trace (core d))))
    with (next_read ops MMD1F DP83TC81x_STRAP (core d)).
  destruct (Z.ltb_spec (next_read ops MMD1F DP83TC81x_STRAP (core d)) 0)
    as [Hneg|Hpos].
  - rewrite phy_read_mmd_eq. cbn [fst snd].
    change (next_read ops MMD1F DP83TC81x_STRAP
              (mk_phy_device (mk_private 0 false false false)
                 (autoneg (core d)) (speed (core d)) (duplex (core d))
                 (supported (core d)) (mdio (core d)) (trace (core d))))
      with (next_read ops MMD1F DP83TC81x_STRAP (core d)).
    assert (Hnz : nonzero (next_read ops MMD1F DP83TC81x_STRAP (core d))
                  = true).
    { unfold nonzero. apply negb_true_iff, Z.eqb_neq. lia. }
    rewrite Hnz. reflexivity.
  - cbn [fst snd priv chip is_master is_rgmii is_sgmii orb autoneg speed
         duplex supported mdio trace].
    change (nonzero 0) with false. cbv iota.
    unfold mbind at 1, get_phydev. cbn [phy_id with_core].
    unfold known_chip_id, chip_of_id.
    destruct (phy_id d =? DP83TC812_PHY_ID);
      [|destruct (phy_id d =? DP83TC813_PHY_ID);
        [|destruct (phy_id d =? DP83TC814_PHY_ID)]];
      cbn [orb]; try reflexivity;
      unfold mbind; rewrite lift_eq; reflexivity.
Qed.

(** X24. The ways [probe] ends before any configuration.  A failed
    allocation gives [-ENOMEM] with the device untouched.  Otherwise the
    private data start from zeroed memory and the strap register is read:
    a failed read is returned as it is; a PHY identifier other than the
    three known ones gives [-EINVAL].  In both cases the strap read is the
    only access made, so the PHY is not reset and no register is
    written. *)
Theorem probe_early_exits (d : attached_phy B) :
  dp83tc81x_probe ops mii phy_get_internal_delay false d = (- ENOMEM, d)
  /\ (next_read ops MMD1F DP83TC81x_STRAP (core d) < 0 ->
      dp83tc81x_probe ops mii phy_get_internal_delay true d
      = (next_read ops MMD1F DP83TC81x_STRAP (core d),
         with_core d
           (after_strap_read ops (core d)
              (mk_private 0 false false false))))
  /\ (0 <= next_read ops MMD1F DP83TC81x_STRAP (core d) ->
      known_chip_id (phy_id d) = false ->
      dp83tc81x_probe ops mii phy_get_internal_delay true d
      = (- EINVAL,
         with_core d
           (after_strap_read ops (core d)
              (mk_private 0
                 (Z.testbit (next_read ops MMD1F DP83TC81x_STRAP (core d)) 9)
                 (Z.testbit (next_read ops MMD1F DP83TC81x_STRAP (core d)) 7)
                 false)))).
Proof.
  split; [reflexivity | split].
  - intros Hv. rewrite probe_eq. apply Z.ltb_lt in Hv. now rewrite Hv.
  - intros Hv Hid. rewrite probe_eq. apply Z.ltb_ge in Hv.
    now rewrite Hv, Hid.
Qed.

(** X25. For a known PHY identifier and a strap read that succeeds,
    [probe] runs [config_init] on a device whose private data hold the
    chip type of the identifier, [is_master] and [is_rgmii] equal to
    strap bits 9 and 7, and [is_sgmii] false; these are still the
    private data when [probe] returns, however [config_init] ends.  The
    chip type is one [chip_init] knows. *)
Theorem probe_private_data (d : attached_phy B) :
  0 <= next_read ops MMD1F DP83TC81x_STRAP (core d) ->
  known_chip_id (phy_id d) = true ->
  dp83tc81x_probe ops mii phy_get_internal_delay true d
  = dp83tc81x_config_init ops mii phy_get_internal_delay
      (with_core d
         (after_strap_read ops (core d)
            (mk_private (chip_of_id (phy_id d))
               (Z.testbit (next_read ops MMD1F DP83TC81x_STRAP (core d)) 9)
               (Z.testbit (next_read ops MMD1F DP83TC81x_STRAP (core d)) 7)
               false)))
  /\ priv (core (snd (dp83tc81x_probe ops mii phy_get_internal_delay
                        true d)))
     = mk_private (chip_of_id (phy_id d))
         (Z.testbit (next_read ops MMD1F DP83TC81x_STRAP (core d)) 9)
         (Z.testbit (next_read ops MMD1F DP83TC81x_STRAP (core d)) 7)
         false
  /\ known_chip (chip_of_id (phy_id d)) = true.
Proof.
  intros Hv Hid.
  assert (E : dp83tc81x_probe ops mii phy_get_internal_delay true d
    = dp83tc81x_config_init ops mii phy_get_internal_delay
        (with_core d
           (after_strap_read ops (core d)
              (mk_private (chip_of_id (phy_id d))
                 (Z.testbit (next_read ops MMD1F DP83TC81x_STRAP (core d)) 9)
                 (Z.testbit (next_read ops MMD1F DP83TC81x_STRAP (core d)) 7)
                 false)))).
  { rewrite probe_eq. apply Z.ltb_ge in Hv. now rewrite Hv, Hid. }
  split; [exact E | split].
  - rewrite E, config_init_priv. reflexivity.
  - unfold chip_of_id, known_chip.
    destruct (phy_id d =? DP83TC812_PHY_ID); [reflexivity|].
    destruct (phy_id d =? DP83TC813_PHY_ID); reflexivity.
Qed.

End ConfigInitFacts.

Section ConfigAnegFacts.

Context {B : Type}.
Variable ops : mdio_bus_ops B.
Variable mii : mii_bus_ops B.
Variable phy_get_internal_delay : bool -> Z.
Variable genphy_c45_pma_baset1_setup_master_slave : M (attached_phy B) Z.
Variable genphy_setup_forced : M (attached_phy B) Z.
Variable genphy_config_aneg : M (attached_phy B) Z.

(** X26. [config_init] and [config_aneg] together: once the hardware
    reset of [config_init] went through, autonegotiation is off, so on
    an interface other than SGMII a following [config_aneg] whose
    master/slave setup does not fail and leaves the autonegotiation
    setting alone always ends in [genphy_setup_forced], run on the device
    the master/slave setup left; [genphy_config_aneg] is not run.  A
    positive result of the master/slave setup changes nothing in this. *)
Theorem config_aneg_forced_after_config_init (d : attached_phy B) :
  hw_reset_result ops (core d) = 0 ->
  is_PHY_INTERFACE_MODE_SGMII (interface d) = false ->
  0 <= fst (genphy_c45_pma_baset1_setup_master_slave
              (snd (dp83tc81x_config_init ops mii phy_get_internal_delay
                      d))) ->
  autoneg (core (snd (genphy_c45_pma_baset1_setup_master_slave
                        (snd (dp83tc81x_config_init ops mii
                                phy_get_internal_delay d)))))
  = autoneg (core (snd (dp83tc81x_config_init ops mii
                          phy_get_internal_delay d))) ->
  dp83tc81x_config_aneg ops mii genphy_c45_pma_baset1_setup_master_slave
    genphy_setup_forced genphy_config_aneg
    (snd (dp83tc81x_config_init ops mii phy_get_internal_delay d))
  = genphy_setup_forced
      (snd (genphy_c45_pma_baset1_setup_master_slave
              (snd (dp83tc81x_config_init ops mii phy_get_internal_delay
                      d)))).
Proof.
  intros Hhw Hs Herr Hkeep.
  destruct (config_init_shape ops mii phy_get_internal_delay d)
    as (b & evs & mevs & E).
  assert (Ha : autoneg (core (snd (dp83tc81x_config_init ops mii
                                     phy_get_internal_delay d)))
               = AUTONEG_DISABLE).
  { rewrite E. cbn [core autoneg advanced].
    now apply chip_init_autoneg. }
  assert (Hi : interface (snd (dp83tc81x_config_init ops mii
                                 phy_get_internal_delay d)) = interface d)
    by now rewrite E.
  rewrite Ha in Hkeep.
  set (d1 := snd (dp83tc81x_config_init ops mii phy_get_internal_delay d))
    in *.
  unfold dp83tc81x_config_aneg, mbind at 1, get_phydev.
  rewrite Hi, Hs. unfold config_aneg_master_slave, mbind at 1.
  destruct (genphy_c45_pma_baset1_setup_master_slave d1) as [err d2].
  cbn [fst snd] in *. apply Z.ltb_ge in Herr. rewrite Herr.
  unfold mbind, get_phydev. now rewrite Hkeep.
Qed.

End ConfigAnegFacts.
(** * Runs on the scripted bus *)

Import ScriptedBus.

(** C1 at concrete register values: [0x88] (bit 7 only) is a short,
    [0xC8] (bits 7 and 6) is open, [0x48] (bit 7 clear) is unspecified. *)
Lemma report_trans_classification_witness :
  fst (dp83tc81x_cable_test_report_trans 0x88 (device slave812 []))
    = ETHTOOL_A_CABLE_RESULT_CODE_SAME_SHORT
  /\ fst (dp83tc81x_cable_test_report_trans 0xC8 (device slave812 []))
       = ETHTOOL_A_CABLE_RESULT_CODE_OPEN
  /\ fst (dp83tc81x_cable_test_report_trans 0x48 (device slave812 []))
       = ETHTOOL_A_CABLE_RESULT_CODE_UNSPEC.
Proof.
  destruct (report_trans_classification (device slave812 []))
    as (_ & Hpeak & Hnone).
  split; [exact (Hpeak 0x88 eq_refl) | split].
  - exact (Hpeak 0xC8 eq_refl).
  - apply Hnone; [reflexivity | discriminate].
Defined.

(** Raw result [0xC8] has bit 6 set: the code classifies it as OPEN, not
    as SAME_SHORT. *)
Lemma report_trans_0xC8_not_same_short :
  fst (dp83tc81x_cable_test_report_trans 0xC8 (device slave812 []))
    = ETHTOOL_A_CABLE_RESULT_CODE_OPEN
  /\ fst (dp83tc81x_cable_test_report_trans 0xC8 (device slave812 []))
       <> ETHTOOL_A_CABLE_RESULT_CODE_SAME_SHORT.
Proof. split; [reflexivity | discriminate]. Qed.

Lemma report_trans_fault_distance_witness :
  snd (dp83tc81x_cable_test_report_trans 0xC8 (device slave812 []))
    = advanced (device slave812 []) []
        [EvFaultLength ETHTOOL_A_CABLE_PAIR_A 800]
  /\ dp83tc81x_cable_test_report_trans 0x1C8 (device slave812 [])
     = dp83tc81x_cable_test_report_trans 0xC8 (device slave812 []).
Proof.
  destruct (report_trans_fault_distance (device slave812 []))
    as (Hdist & Hindep & _).
  split.
  - exact (Hdist 0xC8 eq_refl).
  - apply Hindep; reflexivity.
Defined.

(** Status [0x0003]: done and fail. *)
Lemma get_status_done_fail_witness :
  dp83tc81x_cable_test_get_status ops (device slave812 [0x3])
    = ((- EINVAL, false),
       advanced (device slave812 [0x3]) []
         [EvReadMmd MMD1F DP83TC81x_CDCR 0x3]).
Proof.
  exact (proj1 (get_status_done_fail ops (device slave812 [0x3])
                  eq_refl eq_refl)).
Defined.

(** Status [0x0002] (done, no fail), then result [0x88]; and a result
    read that fails with [-EIO]. *)
Lemma get_status_done_pass_witness :
  dp83tc81x_cable_test_get_status ops (device slave812 [0x2; 0x88])
    = ((0, true),
       advanced (device slave812 [0x2; 0x88]) []
         [EvReadMmd MMD1F DP83TC81x_CDCR 0x2;
          EvReadMmd MMD1F DP83TC81x_TDR_TC1 0x88;
          EvFaultLength ETHTOOL_A_CABLE_PAIR_A 800;
          EvResult ETHTOOL_A_CABLE_PAIR_A
            ETHTOOL_A_CABLE_RESULT_CODE_SAME_SHORT])
  /\ fst (dp83tc81x_cable_test_report ops (device slave812 [- EIO]))
     = - EIO
  /\ fst (dp83tc81x_cable_test_report ops (device slave812 [0x88])) = 0.
Proof.
  destruct (get_status_done_pass ops (device slave812 [0x2; 0x88])
              eq_refl eq_refl) as (Hst & Herr & Hok).
  split; [exact Hst | split].
  - exact (f_equal fst (Herr (device slave812 [- EIO]) eq_refl)).
  - refine (proj1 (Hok (device slave812 [0x88]) _)).
    vm_compute. discriminate.
Defined.

(** One poll, then three in a row, while the status register reads [0],
    [1] and [0x8000]. *)
Lemma get_status_polling_idempotent_witness :
  dp83tc81x_cable_test_get_status ops (device slave812 [0x1])
    = ((0, false),
       advanced (device slave812 [0x1]) []
         [EvReadMmd MMD1F DP83TC81x_CDCR 0x1])
  /\ poll_status ops 3 (device slave812 [0x0; 0x1; 0x8000; 0x2])
     = ([(0, false); (0, false); (0, false)],
        advanced (device slave812 [0x0; 0x1; 0x8000; 0x2]) [0x2]
          [EvReadMmd MMD1F DP83TC81x_CDCR 0x0;
           EvReadMmd MMD1F DP83TC81x_CDCR 0x1;
           EvReadMmd MMD1F DP83TC81x_CDCR 0x8000]).
Proof.
  split.
  - exact (proj1 (get_status_polling_idempotent ops
                    (device slave812 [0x1])) eq_refl).
  - exact (proj1 (proj2 (get_status_polling_idempotent ops
                           (device slave812 [0x0; 0x1; 0x8000; 0x2]))
                    3%nat eq_refl)).
Defined.

(** C6 fails on the code.  [get_status] never tests the status read for
    an error: a read failing with [-EIO] (bits 1 and 0 set in two's
    complement) comes back as [-EINVAL]; one failing with [-ETIMEDOUT]
    (bit 1 set, bit 0 clear) is taken for a finished test and the result
    register is read and published; one failing with [-4] (bit 1 clear)
    is reported as success, still running.  [chip_init] overwrites the
    result of its master/slave write and drops the result of
    [phy_set_bits_mmd]: with either of them failing with [-EIO] and every
    other operation succeeding it runs to the end and returns [0]. *)
Theorem transport_errors_not_propagated :
  fst (dp83tc81x_cable_test_get_status ops (device slave812 [- EIO]))
    = (- EINVAL, false)
  /\ dp83tc81x_cable_test_get_status ops
       (device slave812 [- ETIMEDOUT; 0x88])
     = ((0, true),
        advanced (device slave812 [- ETIMEDOUT; 0x88]) []
          [EvReadMmd MMD1F DP83TC81x_CDCR (- ETIMEDOUT);
           EvReadMmd MMD1F DP83TC81x_TDR_TC1 0x88;
           EvFaultLength ETHTOOL_A_CABLE_PAIR_A 800;
           EvResult ETHTOOL_A_CABLE_PAIR_A
             ETHTOOL_A_CABLE_RESULT_CODE_SAME_SHORT])
  /\ fst (dp83tc81x_cable_test_get_status ops (device slave812 [-4]))
     = (0, false)
  /\ fst (dp83tc81x_chip_init ops (device slave812 [0; - EIO])) = 0
  /\ fst (dp83tc81x_chip_init ops
            (device slave812 [0; 0; 0; 0; 0; 0; 0; 0; 0; 0; - EIO])) = 0.
Proof. repeat split; vm_compute; reflexivity. Qed.

(** The register holds [0xE]: bits 3:1 are all set. *)
Lemma sqi_range_witness :
  fst (dp83tc81x_sqi ops (device slave812 [0xE])) = 7
  /\ 0 <= fst (dp83tc81x_sqi ops (device slave812 [0xE])) <= 7.
Proof.
  assert (H : 0 <= next_read ops MMD1F DP83TC81x_dsp_reg_71
                     (device slave812 [0xE]))
    by (vm_compute; discriminate).
  destruct (sqi_range ops (device slave812 [0xE]) H) as (E & R & _).
  split; [exact E | exact R].
Defined.

(** A master whose strap register then reads [0]: still a master. *)
Lemma read_straps_only_sets_witness :
  is_master (priv (snd (dp83tc81x_read_straps ops (device master812 [0x0]))))
    = true
  /\ is_rgmii (priv (snd (dp83tc81x_read_straps ops
                            (device master812 [0x0]))))
     = false.
Proof.
  destruct (read_straps_only_sets ops (device master812 [0x0]))
    as (Hm & _ & _ & Hr).
  split.
  - exact (Hm eq_refl).
  - refine (Hr _ eq_refl). vm_compute. discriminate.
Defined.

Lemma read_status_discards_master_slave_witness :
  dp83tc81x_read_status link_read_ok master_slave_read_eio
    (device slave812 [])
  = (0, device slave812 []).
Proof.
  exact (read_status_discards_master_slave link_read_ok
           master_slave_read_eio (device slave812 []) eq_refl).
Defined.

(** * Further runs on the scripted bus *)

Import ScriptedMii.

(** The TDR configuration table on a bus where every write succeeds. *)
Lemma write_seq_success_witness :
  exists b,
    snd (dp83tc81x_write_seq ops DP83TC81x_tdr_config_init
           (device slave812 []))
    = advanced (device slave812 []) b
        (map written_ok DP83TC81x_tdr_config_init).
Proof.
  exact (write_seq_success ops DP83TC81x_tdr_config_init
           (device slave812 []) eq_refl).
Defined.

(** The third write of the TDR configuration table fails with [-EIO]. *)
Lemma write_seq_failure_witness :
  exists b l1 x l2,
    DP83TC81x_tdr_config_init = l1 ++ x :: l2
    /\ snd (dp83tc81x_write_seq ops DP83TC81x_tdr_config_init
              (device slave812 [0; 0; - EIO]))
       = advanced (device slave812 [0; 0; - EIO]) b
           (map written_ok l1
            ++ [EvWriteMmd (MMD x) (reg x) (val x)
                  (fst (dp83tc81x_write_seq ops DP83TC81x_tdr_config_init
                          (device slave812 [0; 0; - EIO])))]).
Proof.
  apply (write_seq_failure ops DP83TC81x_tdr_config_init
           (device slave812 [0; 0; - EIO])).
  vm_compute. discriminate.
Defined.

(** A master whose strap read fails keeps its private data. *)
Lemma read_straps_result_witness :
  priv (snd (dp83tc81x_read_straps ops (device master812 [- EIO])))
  = master812.
Proof.
  exact (proj1 (proj2 (proj2 (read_straps_result ops
                                (device master812 [- EIO])))) eq_refl).
Defined.

(** The strap register reads [0x200] (master) twice. *)
Lemma read_straps_idempotent_witness :
  priv (snd (dp83tc81x_read_straps ops
               (snd (dp83tc81x_read_straps ops
                       (device slave812 [0x200; 0x200])))))
  = priv (snd (dp83tc81x_read_straps ops
                 (device slave812 [0x200; 0x200]))).
Proof.
  exact (read_straps_idempotent ops (device slave812 [0x200; 0x200])
           eq_refl).
Defined.

(** A reset write that fails, and one that returns a positive value. *)
Lemma phy_reset_result_witness :
  dp83tc81x_phy_reset ops (device slave812 [- EIO])
  = phy_write_mmd ops MMD1F MII_DP83TC81x_RESET_CTRL DP83TC81x_HW_RESET
      (device slave812 [- EIO])
  /\ dp83tc81x_phy_reset ops (device slave812 [1; 0x280])
     = dp83tc81x_read_straps ops
         (snd (phy_write_mmd ops MMD1F MII_DP83TC81x_RESET_CTRL
                 DP83TC81x_HW_RESET (device slave812 [1; 0x280]))).
Proof.
  split.
  - exact (proj1 (proj2 (phy_reset_result ops (device slave812 [- EIO])))
             eq_refl).
  - apply (proj2 (proj2 (phy_reset_result ops
                           (device slave812 [1; 0x280])))).
    vm_compute. discriminate.
Defined.

Lemma report_trans_ok_only_zero_witness :
  fst (dp83tc81x_cable_test_report_trans 0 (device slave812 []))
    = ETHTOOL_A_CABLE_RESULT_CODE_OK
  /\ snd (dp83tc81x_cable_test_report_trans 0x48 (device slave812 []))
     = device slave812 [].
Proof.
  split.
  - exact (proj2 (proj1 (report_trans_ok_only_zero 0 (device slave812 [])))
             eq_refl).
  - exact (proj2 (proj2 (report_trans_ok_only_zero 0x48
                           (device slave812 []))) eq_refl).
Defined.

(** The result register reads [0xC8]. *)
Lemma report_publication_witness :
  exists b,
    snd (dp83tc81x_cable_test_report ops (device slave812 [0xC8]))
    = advanced (device slave812 [0xC8]) b
        [EvReadMmd MMD1F DP83TC81x_TDR_TC1 0xC8;
         EvFaultLength ETHTOOL_A_CABLE_PAIR_A 800;
         EvResult ETHTOOL_A_CABLE_PAIR_A ETHTOOL_A_CABLE_RESULT_CODE_OPEN].
Proof.
  assert (H : 0 <= next_read ops MMD1F DP83TC81x_TDR_TC1
                     (device slave812 [0xC8]) < 2 ^ 32)
    by (split; [vm_compute; discriminate | reflexivity]).
  exact (proj1 (report_publication ops (device slave812 [0xC8]) H)).
Defined.

Lemma get_status_finished_iff_witness :
  snd (fst (dp83tc81x_cable_test_get_status ops
              (device slave812 [0x2; 0x88]))) = true.
Proof.
  exact (proj2 (get_status_finished_iff ops (device slave812 [0x2; 0x88]))
           (conj eq_refl eq_refl)).
Defined.

Lemma sqi_le_sqi_max_witness :
  fst (dp83tc81x_sqi ops (device slave812 [- EIO])) = - EIO.
Proof.
  exact (proj1 (proj2 (sqi_le_sqi_max ops (device slave812 [- EIO])))
           eq_refl).
Defined.

(** The hardware-reset write fails with [-EIO]. *)
Lemma chip_init_reset_failure_witness :
  dp83tc81x_chip_init ops (device slave812 [- EIO])
  = (- EIO,
     advanced (device slave812 [- EIO]) []
       [EvWriteMmd MMD1F MII_DP83TC81x_RESET_CTRL DP83TC81x_HW_RESET
          (- EIO)]).
Proof.
  apply (chip_init_reset_failure ops (device slave812 [- EIO])).
  vm_compute. discriminate.
Defined.

(** A chip type the driver has no case for. *)
Lemma chip_init_unknown_chip_witness :
  exists b r,
    dp83tc81x_chip_init ops (device (mk_private 7 false false false) [])
    = (- EINVAL,
       advanced
         (with_forced_link (device (mk_private 7 false false false) []))
         b
         (chip_init_prologue (device (mk_private 7 false false false) [])
            r)).
Proof.
  exact (chip_init_unknown_chip ops
           (device (mk_private 7 false false false) []) eq_refl eq_refl).
Defined.

(** A slave on a bus where every access succeeds. *)
Lemma chip_init_success_witness :
  known_chip (chip (priv (device slave812 []))) = true
  /\ exists b r1 r2,
       snd (dp83tc81x_chip_init ops (device slave812 []))
       = advanced (with_forced_link (device slave812 [])) b
           (chip_init_prologue (device slave812 []) r1
            ++ map written_ok (chip_init_table (device slave812 []))
            ++ [EvSetBitsMmd MMD1F 0x018B (BIT 6) r2;
                EvDelay 10;
                EvWriteMmd MMD1F MII_DP83TC81x_RESET_CTRL
                  DP83TC81x_SW_RESET 0;
                EvDelay 100]).
Proof.
  exact (chip_init_success ops (device slave812 []) eq_refl).
Defined.

(** The second entry of the slave table fails with [-EIO]. *)
Lemma chip_init_error_origin_witness :
  exists evs devad regnum value,
    trace (snd (dp83tc81x_chip_init ops (device slave812 [0; 0; 0; - EIO])))
    = trace (device slave812 [0; 0; 0; - EIO]) ++ evs
    /\ In (EvWriteMmd devad regnum value (- EIO)) evs.
Proof.
  assert (H : fst (dp83tc81x_chip_init ops
                     (device slave812 [0; 0; 0; - EIO])) <> 0)
    by (vm_compute; discriminate).
  destruct (chip_init_error_origin ops (device slave812 [0; 0; 0; - EIO]) H)
    as [[K _]|E].
  - discriminate K.
  - exact E.
Defined.

Lemma chip_init_frame_witness :
  autoneg (snd (dp83tc81x_chip_init ops (device slave812 [0; 0; - EIO])))
    = AUTONEG_DISABLE
  /\ speed (snd (dp83tc81x_chip_init ops (device slave812 [0; 0; - EIO])))
     = SPEED_100.
Proof.
  destruct (proj2 (chip_init_frame ops (device slave812 [0; 0; - EIO]))
              eq_refl) as (Ha & Hs & _).
  split; [exact Ha | exact Hs].
Defined.

(** A DP83TC814 is brought up like a DP83TC812, here with a failing
    master/slave write. *)
Lemma chip_init_same_for_known_chips_witness :
  dp83tc81x_chip_init ops
    (with_chip DP83TC814_CT (device slave812 [0; - EIO]))
  = (fst (dp83tc81x_chip_init ops
            (with_chip DP83TC812_CT (device slave812 [0; - EIO]))),
     with_chip DP83TC814_CT
       (snd (dp83tc81x_chip_init ops
               (with_chip DP83TC812_CT (device slave812 [0; - EIO]))))).
Proof.
  exact (chip_init_same_for_known_chips ops DP83TC812_CT DP83TC814_CT
           (device slave812 [0; - EIO]) eq_refl eq_refl).
Defined.

(** Enabling interrupts while the status registers read [0x1], [0x2] and
    [0x4]. *)
Lemma config_intr_enable_success_witness :
  exists b v1 e1 v2 e2 v3,
    0 <= v1 /\ 0 <= e1 /\ 0 <= v2 /\ 0 <= e2 /\ 0 <= v3
    /\ snd (dp83tc81x_config_intr mii
              (attached slave812 PHY_INTERFACE_MODE_other true 0
                 [0x1; 0; 0x2; 0; 0x4; 0]))
       = mii_accessed
           (attached slave812 PHY_INTERFACE_MODE_other true 0
              [0x1; 0; 0x2; 0; 0x4; 0]) b
           [EvRead MII_DP83TC81x_INT_STAT1 v1;
            EvWrite MII_DP83TC81x_INT_STAT1 (to_u16 (Z.lor v1 0xE8)) e1;
            EvRead MII_DP83TC81x_INT_STAT2 v2;
            EvWrite MII_DP83TC81x_INT_STAT2 (to_u16 (Z.lor v2 0xCC)) e2;
            EvRead MII_DP83TC81x_INT_STAT3 v3;
            EvWrite MII_DP83TC81x_INT_STAT3 (to_u16 (Z.lor v3 0x1D))
              (fst (dp83tc81x_config_intr mii
                      (attached slave812 PHY_INTERFACE_MODE_other true 0
                         [0x1; 0; 0x2; 0; 0x4; 0])))].
Proof.
  assert (H : 0 <= fst (dp83tc81x_config_intr mii
                          (attached slave812 PHY_INTERFACE_MODE_other true 0
                             [0x1; 0; 0x2; 0; 0x4; 0])))
    by (vm_compute; discriminate).
  exact (proj1 (config_intr_enable_success mii
                  (attached slave812 PHY_INTERFACE_MODE_other true 0
                     [0x1; 0; 0x2; 0; 0x4; 0]) eq_refl H)).
Defined.


Lemma config_intr_disable_success_witness :
  exists b e1 e2,
    0 <= e1 /\ 0 <= e2
    /\ snd (dp83tc81x_config_intr mii
              (attached slave812 PHY_INTERFACE_MODE_other false 0 []))
       = mii_accessed
           (attached slave812 PHY_INTERFACE_MODE_other false 0 []) b
           [EvWrite MII_DP83TC81x_INT_STAT1 0 e1;
            EvWrite MII_DP83TC81x_INT_STAT2 0 e2;
            EvWrite MII_DP83TC81x_INT_STAT3 0
              (fst (dp83tc81x_config_intr mii
                      (attached slave812 PHY_INTERFACE_MODE_other false 0
                         [])))].
Proof.
  assert (H : 0 <= fst (dp83tc81x_config_intr mii
                          (attached slave812 PHY_INTERFACE_MODE_other false
                             0 [])))
    by (vm_compute; discriminate).
  exact (config_intr_disable_success mii
           (attached slave812 PHY_INTERFACE_MODE_other false 0 [])
           eq_refl H).
Defined.

(** An interface that is neither RGMII nor SGMII. *)
Lemma config_init_is_chip_init_witness :
  dp83tc81x_config_init ops mii no_delay
    (attached slave812 PHY_INTERFACE_MODE_other false 0 [])
  = (0,
     with_core (attached slave812 PHY_INTERFACE_MODE_other false 0 [])
       (snd (dp83tc81x_chip_init ops (device slave812 [])))).
Proof.
  exact (config_init_is_chip_init ops mii no_delay
           (attached slave812 PHY_INTERFACE_MODE_other false 0 [])
           (or_intror (conj eq_refl eq_refl))).
Defined.

(** RGMII-ID with a delay on the receive clock only: bit 1 is set. *)
Lemma config_init_rgmii_witness :
  rgmii_delay_bits (rx_delay_only true) (rx_delay_only false) = 2
  /\ dp83tc81x_config_init ops mii rx_delay_only
       (attached slave812 PHY_INTERFACE_MODE_RGMII_ID false 0 [])
     = (0,
        with_core (attached slave812 PHY_INTERFACE_MODE_RGMII_ID false 0 [])
          (snd (phy_set_bits_mmd ops MMD1 DP83TC81x_RGMII_ID_CTRL 2
                  (snd (dp83tc81x_chip_init ops (device slave812 [])))))).
Proof.
  destruct (config_init_rgmii ops mii rx_delay_only
              (attached slave812 PHY_INTERFACE_MODE_RGMII_ID false 0 [])
              eq_refl eq_refl) as (Hb & _ & Hset).
  split; [exact Hb | exact (Hset (or_introl eq_refl))].
Defined.


(** An identifier the driver has no case for; the straps read [0x280]
    (master, RGMII). *)
Lemma probe_early_exits_witness :
  dp83tc81x_probe ops mii no_delay true
    (attached slave812 PHY_INTERFACE_MODE_other false 0x2000a251 [0x280])
  = (- EINVAL,
     with_core
       (attached slave812 PHY_INTERFACE_MODE_other false 0x2000a251 [0x280])
       (after_strap_read ops (device slave812 [0x280])
          (mk_private 0 true true false))).
Proof.
  apply (proj2 (proj2 (probe_early_exits ops mii no_delay
                         (attached slave812 PHY_INTERFACE_MODE_other false
                            0x2000a251 [0x280])))).
  - vm_compute. discriminate.
  - reflexivity.
Defined.

(** A DP83TC813 whose straps read [0x200] (master), probed on memory
    that held other data before. *)
Lemma probe_private_data_witness :
  priv (core (snd (dp83tc81x_probe ops mii no_delay true
                     (attached (mk_private 5 false true true)
                        PHY_INTERFACE_MODE_other false DP83TC813_PHY_ID
                        [0x200]))))
  = mk_private DP83TC813_CT true false false.
Proof.
  assert (H : 0 <= next_read ops MMD1F DP83TC81x_STRAP
                     (core (attached (mk_private 5 false true true)
                              PHY_INTERFACE_MODE_other false
                              DP83TC813_PHY_ID [0x200])))
    by (vm_compute; discriminate).
  exact (proj1 (proj2 (probe_private_data ops mii no_delay
                         (attached (mk_private 5 false true true)
                            PHY_INTERFACE_MODE_other false DP83TC813_PHY_ID
                            [0x200]) H eq_refl))).
Defined.

Lemma config_aneg_forced_after_config_init_witness :
  dp83tc81x_config_aneg ops mii master_slave_setup_ok setup_forced_ok
    config_aneg_ok
    (snd (dp83tc81x_config_init ops mii no_delay
            (attached slave812 PHY_INTERFACE_MODE_other false 0 [])))
  = setup_forced_ok
      (snd (master_slave_setup_ok
              (snd (dp83tc81x_config_init ops mii no_delay
                      (attached slave812 PHY_INTERFACE_MODE_other false 0
                         []))))).
Proof.
  assert (H1 : hw_reset_result ops
                 (core (attached slave812 PHY_INTERFACE_MODE_other false 0
                          [])) = 0)
    by (vm_compute; reflexivity).
  assert (H2 : is_PHY_INTERFACE_MODE_SGMII
                 (interface (attached slave812 PHY_INTERFACE_MODE_other
                               false 0 [])) = false)
    by (vm_compute; reflexivity).
  assert (H3 : 0 <= fst (master_slave_setup_ok
                           (snd (dp83tc81x_config_init ops mii no_delay
                                   (attached slave812
                                      PHY_INTERFACE_MODE_other false 0
                                      [])))))
    by (vm_compute; discriminate).
  assert (H4 : autoneg (core (snd (master_slave_setup_ok
                                     (snd (dp83tc81x_config_init ops mii
                                             no_delay
                                             (attached slave812
                                                PHY_INTERFACE_MODE_other
                                                false 0 []))))))
               = autoneg (core (snd (dp83tc81x_config_init ops mii no_delay
                                       (attached slave812
                                          PHY_INTERFACE_MODE_other false 0
                                          [])))))
    by (vm_compute; reflexivity).
  exact (config_aneg_forced_after_config_init ops mii no_delay
           master_slave_setup_ok setup_forced_ok config_aneg_ok
           (attached slave812 PHY_INTERFACE_MODE_other false 0 [])
           H1 H2 H3 H4).
Defined.

(** The second write of the TDR configuration fails with [-EIO]: the
    start bit is written all the same. *)
Lemma cable_test_start_trace_witness :
  exists b l1 x l2 r,
    DP83TC81x_tdr_config_init = l1 ++ x :: l2
    /\ dp83tc81x_cable_test_start ops (device slave812 [0; - EIO])
       = (0,
          advanced (device slave812 [0; - EIO]) b
            (map written_ok l1
             ++ [EvWriteMmd (MMD x) (reg x) (val x)
                   (fst (dp83tc81x_write_seq ops DP83TC81x_tdr_config_init
                           (device slave812 [0; - EIO])));
                 EvWriteMmd MMD1F DP83TC81x_CDCR DP83TC81x_TDR_START_BIT r;
                 EvDelay 100])).
Proof.
  apply (proj2 (cable_test_start_trace ops (device slave812 [0; - EIO]))).
  vm_compute. discriminate.
Defined.
